(** * The propagation dispatcher of THOR

    A shallow embedding of [propagateOrbits]
    (thor/orbits/propagate/propagate.py) and the properties of it that the
    specification states.

    The dispatcher is a Python function that
    - checks its two time arguments and converts them to TDB Modified
      Julian Dates,
    - mutates the dictionary of backend options it was handed (it pops
      ["origin"], writes it back, sets ["time_scale"]),
    - calls the collaborators [shiftOrbitsOrigin], [propagateUniversal],
      [propagateOrbitsPYOORB] and [_backendHandler], whose code is in other
      modules of the package, and
    - assembles a pandas DataFrame.

    The embedding keeps all four: exceptions are an [outcome], the
    dictionary and the list of collaborator calls are threaded through a
    state-and-exception monad, numpy arrays of float64 are lists of
    binary64 floats, and the collaborators are the fields of a class. *)

From Stdlib Require Import ZArith List String Lia.
From Stdlib Require Import Floats.PrimFloat Floats.SpecFloat Floats.FloatOps.
From Stdlib Require Import Floats.FloatAxioms.
From stdpp Require Import gmap strings list fin_maps.

(** ** Python values, exceptions, arrays *)

(** The values a backend option can be bound to. *)
Inductive pyval : Type :=
| PyNone
| PyBool (b : bool)
| PyInt (z : Z)
| PyFloat (f : float)
| PyStr (s : string).

(** [v == "literal"] for a value [v] of the types above: only a string
    compares equal to a string. *)
Definition py_eq_str (v : pyval) (s : string) : bool :=
  match v with
  | PyStr s' => String.eqb s' s
  | _ => false
  end.

(** The exceptions that reach the caller.  [KeyError], [ValueError] and
    [IndexError] are Python's; [InvalidTimeInput] is the failure of the
    check of a time argument; [BackendError] stands for whatever a
    collaborator raises on its own. *)
Inductive exn : Type :=
| InvalidTimeInput (arg_name : string)
| KeyError (key : string)
| ValueError (msg : string)
| IndexError (msg : string)
| BackendError (msg : string).

Inductive outcome (A : Type) : Type :=
| Return (a : A)
| Raise (e : exn).
Arguments Return {A} a.
Arguments Raise {A} e.

(** A two-dimensional float64 [ndarray], by rows; every row of an array has
    the same length. *)
Definition ndarray : Type := list (list float).

(** ** numpy *)

(** [a[:, j]] once it is known that [a] has more than [j] columns. *)
Definition column_values (j : nat) (a : ndarray) : list float :=
  map (fun row => default nan (row !! j)) a.

(** [a[:, j]]: numpy raises [IndexError] when the array has no column [j]. *)
Definition getcol (j : nat) (a : ndarray) : outcome (list float) :=
  if forallb (fun row => j <? length row) a
  then Return (column_values j a)
  else Raise (IndexError "index is out of bounds for axis 1").

(** [a[:, k:]] *)
Definition columns_from (k : nat) (a : ndarray) : ndarray :=
  map (drop k) a.

(** Broadcasting of a value of shape (rx, cx) to the shape (r, c) of the
    target of an assignment: an axis of the value has the target's length,
    or length one and is repeated. *)
Definition broadcast_rows (r : nat) (x : ndarray) : option ndarray :=
  if length x =? r then Some x
  else match x with
       | [xrow] => Some (replicate r xrow)
       | _ => None
       end.

Definition broadcast_row (c : nat) (xrow : list float) : option (list float) :=
  if length xrow =? c then Some xrow
  else match xrow with
       | [v] => Some (replicate c v)
       | _ => None
       end.

Definition assign_row (k : nat) (row xrow : list float) : option (list float) :=
  option_map (app (take k row)) (broadcast_row (length row - k) xrow).

Fixpoint assign_rows (k : nat) (a x : ndarray) : option ndarray :=
  match a, x with
  | [], _ => Some []
  | row :: a', xrow :: x' =>
      match assign_row k row xrow, assign_rows k a' x' with
      | Some row', Some rest => Some (row' :: rest)
      | _, _ => None
      end
  | _ :: _, [] => None
  end.

(** [a[:, k:] = x], giving the array [a] has become; numpy raises
    [ValueError] when [x] cannot be broadcast to the shape of the slice. *)
Definition assign_columns_from (k : nat) (a x : ndarray) : outcome ndarray :=
  match broadcast_rows (length a) x with
  | Some x' =>
      match assign_rows k a x' with
      | Some a' => Return a'
      | None => Raise (ValueError "could not broadcast input array")
      end
  | None => Raise (ValueError "could not broadcast input array")
  end.

(** [np.concatenate(arrays)] of one-dimensional arrays: an empty sequence
    of arrays is a [ValueError]. *)
Definition np_concatenate (arrays : list (list float)) : outcome (list float) :=
  match arrays with
  | [] => Raise (ValueError "need at least one array to concatenate")
  | _ => Return (concat arrays)
  end.

(** Elementwise [a + (b - a)] of float64 arrays of one shape. *)
Definition np_sub (a b : list float) : list float := zip_with PrimFloat.sub a b.
Definition np_add (a b : list float) : list float := zip_with PrimFloat.add a b.



(** ** pandas *)

Inductive dtype : Type := int64 | float64.

Inductive column : Type :=
| IntCol (values : list Z)
| FloatCol (values : list float).

Definition col_length (c : column) : nat :=
  match c with
  | IntCol l => length l
  | FloatCol l => length l
  end.

Definition col_dtype (c : column) : dtype :=
  match c with
  | IntCol _ => int64
  | FloatCol _ => float64
  end.

(** A DataFrame: its columns in order, each with its name. *)
Definition DataFrame : Type := list (string * column).

Fixpoint df_lookup (name : string) (df : DataFrame) : option column :=
  match df with
  | [] => None
  | (n, c) :: rest => if String.eqb n name then Some c else df_lookup name rest
  end.

(** [df[name]] *)
Definition df_getitem (df : DataFrame) (name : string) : outcome column :=
  match df_lookup name df with
  | Some c => Return c
  | None => Raise (KeyError name)
  end.

Fixpoint df_replace (name : string) (c : column) (df : DataFrame) : option DataFrame :=
  match df with
  | [] => None
  | (n, c') :: rest =>
      if String.eqb n name then Some ((n, c) :: rest)
      else option_map (cons (n, c')) (df_replace name c rest)
  end.

(** [df[name] = values]: the values must be as many as the rows of the
    frame; an existing column keeps its place, a new one goes last. *)
Definition df_setitem (df : DataFrame) (name : string) (c : column) : outcome DataFrame :=
  match df with
  | [] => Return [(name, c)]
  | (_, c0) :: _ =>
      if col_length c =? col_length c0
      then Return (default (df ++ [(name, c)]) (df_replace name c df))
      else Raise (ValueError "Length of values does not match length of index")
  end.

(** [df.rename(columns={old: new}, inplace=True)]: a frame without a column
    [old] is left as it is. *)
Definition df_rename (df : DataFrame) (old new : string) : DataFrame :=
  map (fun nc => (if String.eqb (fst nc) old then new else fst nc, snd nc)) df.

(** [pd.DataFrame(data, columns=names)] of a two-dimensional array: one
    float64 column per name; pandas raises [ValueError] when the array has
    another number of columns. *)
Definition pd_DataFrame (data : ndarray) (names : list string) : outcome DataFrame :=
  if forallb (fun row => length row =? length names) data
  then Return (imap (fun j name => (name, FloatCol (column_values j data))) names)
  else Raise (ValueError "Shape of passed values does not match the columns").

(** The cast of one float64 to int64: truncation toward zero.  A value
    outside the int64 range gives the smallest int64, as the conversion
    instruction of the processor does. *)
Definition float_to_int64 (f : float) : option Z :=
  match Prim2SF f with
  | S754_zero _ => Some 0%Z
  | S754_finite s m e =>
      let v := if (0 <=? e)%Z then (Z.pos m * 2 ^ e)%Z else Z.shiftr (Z.pos m) (- e) in
      let z := if s then (- v)%Z else v in
      Some (if ((- 2 ^ 63 <=? z) && (z <? 2 ^ 63))%Z then z else (- 2 ^ 63)%Z)
  | S754_infinity _ | S754_nan => None
  end.

Fixpoint floats_to_int64 (l : list float) : option (list Z) :=
  match l with
  | [] => Some []
  | f :: l' =>
      match float_to_int64 f, floats_to_int64 l' with
      | Some z, Some zs => Some (z :: zs)
      | _, _ => None
      end
  end.

(** [series.astype(int)]: pandas refuses a column that holds a NaN or an
    infinity. *)
Definition astype_int (c : column) : outcome column :=
  match c with
  | IntCol l => Return (IntCol l)
  | FloatCol l =>
      match floats_to_int64 l with
      | Some zs => Return (IntCol zs)
      | None => Raise (ValueError "Cannot convert non-finite values (NA or inf) to integer")
      end
  end.

(** ** The dispatcher *)

Declare Scope dispatch_scope.
Delimit Scope dispatch_scope with dispatch.

(** The error messages of the two [raise] statements of [propagateOrbits]. *)
Definition origin_err : string :=
  "origin should be one of {'heliocenter', 'barycenter'}".
Definition backend_err : string :=
  "backend should be one of 'THOR' or 'PYOORB'".

(** The column names [propagateOrbits] gives the frame of the THOR backend. *)
Definition canonical_columns : list string :=
  ["orbit_id"; "epoch_mjd_tdb"; "x"; "y"; "z"; "vx"; "vy"; "vz"].

(** The collaborators of the dispatcher.

    astropy: a [Time] object is a collection of epochs; [tdb_mjd t] is
    [t.tdb.mjd], [tt_mjd t] is [t.tt.mjd], and [Time_mjd_tdb a] is
    [Time(a, scale="tdb", format="mjd")].

    The package: [shiftOrbitsOrigin], [_backendHandler], [propagateUniversal]
    and [propagateOrbitsPYOORB] are imported from the modules [..state],
    [..handler], [.universal] and [.pyoorb], which are not among the
    sources.  The two backends take the backend options as keyword
    arguments. *)
Class Collaborators : Type := {
  Time : Type;
  tdb_mjd : Time -> list float;
  tt_mjd : Time -> list float;
  Time_mjd_tdb : list float -> Time;
  shiftOrbitsOrigin : ndarray -> Time -> string -> string -> outcome ndarray;
  _backendHandler : string -> string -> outcome (gmap string pyval);
  propagateUniversal :
    ndarray -> list float -> list float -> gmap string pyval -> outcome ndarray;
  propagateOrbitsPYOORB :
    ndarray -> list float -> list float -> gmap string pyval -> outcome DataFrame
}.

Section Dispatcher.

Context {C : Collaborators}.

(** What [propagateOrbits] can be handed as [t0] and [t1]. *)
Inductive pyobj : Type :=
| TimeObj (t : Time)
| OtherObj (v : pyval).

(** Modelled from the spec: [_checkTime] is defined in [thor.utils], which
    is not among the sources.  The specification (4.3, VALIDATE) says
    that [t0] and [t1] must be well-formed time collections and that the
    call fails with [InvalidTimeInput] otherwise.  Here the check hands
    back the [Time] object that passed it. *)
Definition _checkTime (time : pyobj) (arg_name : string) : outcome Time :=
  match time with
  | TimeObj t => Return t
  | OtherObj _ => Raise (InvalidTimeInput arg_name)
  end.

(** A call of a collaborator, with its arguments. *)
Inductive call : Type :=
| Call_backendHandler (backend function_type : string)
| Call_shiftOrbitsOrigin (orbits : ndarray) (t : Time) (origin_in origin_out : string)
| Call_propagateUniversal
    (orbits : ndarray) (t0 t1 : list float) (kwargs : gmap string pyval)
| Call_propagateOrbitsPYOORB
    (orbits : ndarray) (t0 t1 : list float) (kwargs : gmap string pyval).

(** The state a call of [propagateOrbits] works on: the dictionary its
    name [backend_kwargs] refers to (the caller's own dictionary when one
    was passed: Python passes the reference), and the collaborator calls
    made so far, oldest first. *)
Record store : Type := mkStore {
  kwargs : gmap string pyval;
  calls : list call
}.

Definition M (A : Type) : Type := store -> outcome A * store.

Definition ret {A : Type} (a : A) : M A := fun s => (Return a, s).

Definition raise {A : Type} (e : exn) : M A := fun s => (Raise e, s).

(** An exception ends the computation and leaves the state as it is at
    that point. *)
Definition bind {A B : Type} (m : M A) (k : A -> M B) : M B :=
  fun s =>
    match m s with
    | (Return a, s') => k a s'
    | (Raise e, s') => (Raise e, s')
    end.

Definition lift {A : Type} (o : outcome A) : M A := fun s => (o, s).

(** The call [c], whose result is [o]. *)
Definition invoke {A : Type} (c : call) (o : outcome A) : M A :=
  fun s => (o, mkStore (kwargs s) (calls s ++ [c])).

(** [backend_kwargs = d] *)
Definition rebind_kwargs (d : gmap string pyval) : M unit :=
  fun s => (Return tt, mkStore d (calls s)).

(** [backend_kwargs.pop(key)] *)
Definition dict_pop (key : string) : M pyval :=
  fun s =>
    match kwargs s !! key with
    | Some v => (Return v, mkStore (delete key (kwargs s)) (calls s))
    | None => (Raise (KeyError key), s)
    end.

(** [backend_kwargs[key] = v] *)
Definition dict_setitem (key : string) (v : pyval) : M unit :=
  fun s => (Return tt, mkStore (<[key := v]> (kwargs s)) (calls s)).

(** [**backend_kwargs]: the callee gets the bindings, not the dictionary. *)
Definition dict_unpack : M (gmap string pyval) :=
  fun s => (Return (kwargs s), s).

Notation "x <- c1 ;; c2" := (bind c1 (fun x => c2))
  (at level 20, c1 at level 99, c2 at level 200,
   format "'[v' x  <-  c1  ;;  '/' c2 ']'") : dispatch_scope.
Notation "'exec' c1 ;; c2" := (bind c1 (fun _ => c2))
  (at level 20, c1 at level 99, c2 at level 200,
   format "'[v' 'exec'  c1  ;;  '/' c2 ']'") : dispatch_scope.
Local Open Scope dispatch_scope.

(** The branch [if backend == "THOR":]. *)
Definition propagate_THOR (orbits : ndarray) (t0 : Time) (t0_tdb t1_tdb : list float)
  : M DataFrame :=
  origin <- dict_pop "origin" ;;
  orbits_ <- (if py_eq_str origin "barycenter" then
                invoke (Call_shiftOrbitsOrigin orbits t0 "heliocenter" "barycenter")
                  (shiftOrbitsOrigin orbits t0 "heliocenter" "barycenter")
              else if py_eq_str origin "heliocenter" then
                ret orbits
              else
                raise (ValueError origin_err)) ;;
  kw <- dict_unpack ;;
  propagated <- invoke (Call_propagateUniversal orbits_ t0_tdb t1_tdb kw)
                  (propagateUniversal orbits_ t0_tdb t1_tdb kw) ;;
  propagated <- (if py_eq_str origin "barycenter" then
                   epochs <- lift (getcol 1 propagated) ;;
                   let t1_tdb_stacked := Time_mjd_tdb epochs in
                   let states := columns_from 2 propagated in
                   shifted <- invoke
                     (Call_shiftOrbitsOrigin states t1_tdb_stacked "barycenter" "heliocenter")
                     (shiftOrbitsOrigin states t1_tdb_stacked "barycenter" "heliocenter") ;;
                   lift (assign_columns_from 2 propagated shifted)
                 else
                   ret propagated) ;;
  exec dict_setitem "origin" origin ;;
  propagated <- lift (pd_DataFrame propagated canonical_columns) ;;
  orbit_id <- lift (df_getitem propagated "orbit_id") ;;
  orbit_id <- lift (astype_int orbit_id) ;;
  lift (df_setitem propagated "orbit_id" orbit_id).

(** The branch [elif backend == "PYOORB":]. *)
Definition propagate_PYOORB (orbits : ndarray) (t0 t1 : Time) (t1_tdb : list float)
  : M DataFrame :=
  let t0_tt := np_add (tt_mjd t0) (np_sub (tdb_mjd t0) (tt_mjd t0)) in
  let t1_tt := np_add (tt_mjd t1) (np_sub (tdb_mjd t1) (tt_mjd t1)) in
  exec dict_setitem "time_scale" (PyStr "TT") ;;
  kw <- dict_unpack ;;
  propagated <- invoke (Call_propagateOrbitsPYOORB orbits t0_tt t1_tt kw)
                  (propagateOrbitsPYOORB orbits t0_tt t1_tt kw) ;;
  let propagated := df_rename propagated "epoch_mjd" "epoch_mjd_tdb" in
  let epoch_mjd_tdb := replicate (length orbits) t1_tdb in
  epochs <- lift (np_concatenate epoch_mjd_tdb) ;;
  lift (df_setitem propagated "epoch_mjd_tdb" (FloatCol epochs)).

Definition propagateOrbits_body
    (orbits : ndarray) (t0 t1 : pyobj) (backend : string)
    (backend_kwargs : option (gmap string pyval)) : M DataFrame :=
  t0 <- lift (_checkTime t0 "t0") ;;
  t1 <- lift (_checkTime t1 "t1") ;;
  let t0_tdb := tdb_mjd t0 in
  let t1_tdb := tdb_mjd t1 in
  exec (match backend_kwargs with
        | None =>
            d <- invoke (Call_backendHandler backend "propagate")
                   (_backendHandler backend "propagate") ;;
            rebind_kwargs d
        | Some _ => ret tt
        end) ;;
  if String.eqb backend "THOR" then
    propagate_THOR orbits t0 t0_tdb t1_tdb
  else if String.eqb backend "PYOORB" then
    propagate_PYOORB orbits t0 t1 t1_tdb
  else
    raise (ValueError backend_err).

(** [propagateOrbits(orbits, t0, t1, backend, backend_kwargs)]: what the
    call returns or raises, and the state it leaves: the dictionary of
    backend options as the caller finds it afterwards, and the
    collaborator calls that were made.  With [backend_kwargs=None] the
    dictionary is the one [_backendHandler] hands out. *)
Definition propagateOrbits
    (orbits : ndarray) (t0 t1 : pyobj) (backend : string)
    (backend_kwargs : option (gmap string pyval)) : outcome DataFrame * store :=
  propagateOrbits_body orbits t0 t1 backend backend_kwargs
    (mkStore (default ∅ backend_kwargs) []).

(** ** What the specification calls things *)

(** The error kinds of the specification (section 7), by the exceptions of
    [propagateOrbits] that they name: the [ValueError] of the last [else],
    and what the handling of the ["origin"] option raises (the [KeyError]
    of [pop] on a dictionary without the key, the [ValueError] of an
    unrecognized value). *)
Definition UnsupportedBackend (e : exn) : Prop :=
  e = ValueError backend_err.

Definition InvalidConfiguration (e : exn) : Prop :=
  e = KeyError "origin" \/ e = ValueError origin_err.

(** An options map without a usable ["origin"]: the key is missing, or
    bound to something else than the two recognized strings. *)
Definition invalid_origin (kw : gmap string pyval) : Prop :=
  match kw !! "origin" with
  | None => True
  | Some v => py_eq_str v "heliocenter" = false /\ py_eq_str v "barycenter" = false
  end.

(** "A direct propagation call" (section 8): the internal analytic backend
    on the orbits as they are, the TDB Modified Julian Dates of [t0] and
    [t1], and the options. *)
Definition direct_propagation
    (orbits : ndarray) (t0 t1 : Time) (options : gmap string pyval) : outcome ndarray :=
  propagateUniversal orbits (tdb_mjd t0) (tdb_mjd t1) options.

(** The columns of a frame with their types, in order. *)
Definition df_schema (df : DataFrame) : list (string * dtype) :=
  map (fun nc => (fst nc, col_dtype (snd nc))) df.

(** The canonical result schema (section 6). *)
Definition canonical_schema : list (string * dtype) :=
  [("orbit_id", int64); ("epoch_mjd_tdb", float64);
   ("x", float64); ("y", float64); ("z", float64);
   ("vx", float64); ("vy", float64); ("vz", float64)].

(** The six state columns of a frame, in order. *)
Definition state_columns (df : DataFrame) : list (option column) :=
  map (fun name => df_lookup name df) ["x"; "y"; "z"; "vx"; "vy"; "vz"].

(** Every column of the frame has [n] rows. *)
Definition has_rows (n : nat) (df : DataFrame) : Prop :=
  Forall (fun nc => col_length (snd nc) = n) df.

(** The identifiers [ids], each [m] times: orbit-major order. *)
Definition orbit_major (ids : list Z) (m : nat) : list Z :=
  ids ≫= replicate m.


(** Modelled from the spec: the origin shifter ([shiftOrbitsOrigin], not
    among the sources) returns "a state array with same row count and shape
    as input" (4.2). *)
Definition same_shape (a b : ndarray) : Prop :=
  Forall2 (fun row row' => length row = length row') a b.

(** The schema of a frame of the external backend that the dispatcher turns
    into the canonical one: the canonical columns, with the epochs under the
    name [epoch_mjd], of whatever type. *)
Definition cartesian_frame_schema (epoch_type : dtype) : list (string * dtype) :=
  [("orbit_id", int64); ("epoch_mjd", epoch_type);
   ("x", float64); ("y", float64); ("z", float64);
   ("vx", float64); ("vy", float64); ("vz", float64)].

End Dispatcher.

(** ** Arrays and frames that the dispatcher builds *)

(** [a] after [a[:, k:] = x], for an [x] of the shape of the slice. *)
Definition assigned (k : nat) (a x : ndarray) : ndarray :=
  zip_with (fun row xrow => take k row ++ xrow) a x.

(** The frame of the THOR branch for the eight-column array [a], once the
    identifiers are cast to [ids]. *)
Definition internal_frame (a : ndarray) (ids : list Z) : DataFrame :=
  [("orbit_id", IntCol ids);
   ("epoch_mjd_tdb", FloatCol (column_values 1 a));
   ("x", FloatCol (column_values 2 a));
   ("y", FloatCol (column_values 3 a));
   ("z", FloatCol (column_values 4 a));
   ("vx", FloatCol (column_values 5 a));
   ("vy", FloatCol (column_values 6 a));
   ("vz", FloatCol (column_values 7 a))].

(** The same with the six state columns taken from [back]. *)
Definition shifted_frame (out back : ndarray) (ids : list Z) : DataFrame :=
  [("orbit_id", IntCol ids);
   ("epoch_mjd_tdb", FloatCol (column_values 1 out));
   ("x", FloatCol (column_values 0 back));
   ("y", FloatCol (column_values 1 back));
   ("z", FloatCol (column_values 2 back));
   ("vx", FloatCol (column_values 3 back));
   ("vy", FloatCol (column_values 4 back));
   ("vz", FloatCol (column_values 5 back))].

(** The frame of the PYOORB branch: [epoch_mjd] renamed, then the column
    [epoch_mjd_tdb] set to [epochs]. *)
Definition retimed (df : DataFrame) (epochs : list float) : DataFrame :=
  let df' := df_rename df "epoch_mjd" "epoch_mjd_tdb" in
  default (df' ++ [("epoch_mjd_tdb", FloatCol epochs)])
    (df_replace "epoch_mjd_tdb" (FloatCol epochs) df').

(** ** A concrete instance

    Collaborators small enough to run: epochs carried as their TT and TDB
    Modified Julian Dates (1.29 ms apart), an origin shift along x that
    grows with the epoch, straight-line motion for the internal backend, and
    an external backend that leaves the states where they are.  Two orbits,
    two target epochs. *)
Module Example.

Record epochs : Type := mkEpochs {
  tt : list float;
  tdb : list float
}.

Definition tdb_minus_tt : float := 0x1p-26%float.

Definition from_tdb (a : list float) : epochs :=
  mkEpochs (map (fun e => PrimFloat.sub e tdb_minus_tt) a) a.

Definition sun_x (e : float) : float :=
  PrimFloat.mul (PrimFloat.sub e 59000%float) 0x1p-10%float.

Definition shift_row (towards_barycenter : bool) (row : list float) (e : float) : list float :=
  match row with
  | x :: rest =>
      (if towards_barycenter then PrimFloat.add x (sun_x e) else PrimFloat.sub x (sun_x e))
        :: rest
  | [] => []
  end.

Definition shift (states : ndarray) (t : epochs) (origin_in origin_out : string)
  : outcome ndarray :=
  if String.eqb origin_in "heliocenter" && String.eqb origin_out "barycenter"
  then Return (zip_with (shift_row true) states (tdb t))
  else if String.eqb origin_in "barycenter" && String.eqb origin_out "heliocenter"
  then Return (zip_with (shift_row false) states (tdb t))
  else Raise (ValueError "origin_in and origin_out should differ").

Definition propagate_row (id e0 : float) (orbit : list float) (e1 : float) : list float :=
  let dt := PrimFloat.sub e1 e0 in
  match orbit with
  | [x; y; z; vx; vy; vz] =>
      [id; e1;
       PrimFloat.add x (PrimFloat.mul vx dt);
       PrimFloat.add y (PrimFloat.mul vy dt);
       PrimFloat.add z (PrimFloat.mul vz dt);
       vx; vy; vz]
  | _ => []
  end.

Fixpoint universal_from (id : float) (orbits : ndarray) (t0 t1 : list float) : ndarray :=
  match orbits, t0 with
  | orbit :: orbits', e0 :: t0' =>
      map (propagate_row id e0 orbit) t1
        ++ universal_from (PrimFloat.add id 1%float) orbits' t0' t1
  | _, _ => []
  end.

Definition universal (orbits : ndarray) (t0 t1 : list float) (kw : gmap string pyval)
  : outcome ndarray :=
  Return (universal_from 0%float orbits t0 t1).

Definition pyoorb (orbits : ndarray) (t0 t1 : list float) (kw : gmap string pyval)
  : outcome DataFrame :=
  let m := length t1 in
  Return
    (("orbit_id", IntCol (orbit_major (Z.of_nat <$> seq 0 (length orbits)) m))
       :: ("epoch_mjd", FloatCol (concat (replicate (length orbits) t1)))
       :: imap (fun j name => (name, FloatCol (column_values j orbits ≫= replicate m)))
            ["x"; "y"; "z"; "vx"; "vy"; "vz"]).

Definition handler (backend function_type : string) : outcome (gmap string pyval) :=
  if String.eqb backend "THOR" then Return {["origin" := PyStr "heliocenter"]}
  else if String.eqb backend "PYOORB" then Return {["orbit_type" := PyStr "cartesian"]}
  else Raise (KeyError backend).

Definition collaborators : Collaborators := {|
  Time := epochs;
  tdb_mjd := tdb;
  tt_mjd := tt;
  Time_mjd_tdb := from_tdb;
  shiftOrbitsOrigin := shift;
  _backendHandler := handler;
  propagateUniversal := universal;
  propagateOrbitsPYOORB := pyoorb
|}.

Definition orbits : ndarray :=
  [[1; 0; 0; 0; 0.015625; 0]; [2; 0.5; 0; 0; 0.0078125; 0.001953125]]%float.

Definition ids : list Z := [0; 1]%Z.

Definition t0 : @Time collaborators := from_tdb [59002; 59002]%float.

Definition t1 : @Time collaborators := from_tdb [59010; 59020.5]%float.

Definition heliocentric : gmap string pyval :=
  {["origin" := PyStr "heliocenter"; "max_iter" := PyInt 100]}.

Definition barycentric : gmap string pyval :=
  {["origin" := PyStr "barycenter"; "max_iter" := PyInt 100]}.

Definition galactic : gmap string pyval :=
  {["origin" := PyStr "galactic center"; "max_iter" := PyInt 100]}.

Definition no_origin : gmap string pyval :=
  {["max_iter" := PyInt 100]}.

Definition cartesian : gmap string pyval :=
  {["orbit_type" := PyStr "cartesian"]}.

Definition returned (o : outcome ndarray) : ndarray :=
  match o with
  | Return a => a
  | Raise _ => []
  end.

(** What the internal backend returns on the orbits as they are. *)
Definition direct : ndarray :=
  Eval vm_compute in returned (universal orbits (tdb t0) (tdb t1) ∅).

(** What the collaborators return on the barycentric run: the orbits at the
    barycenter, their propagation, and its states back at the heliocenter. *)
Definition at_barycenter : ndarray :=
  Eval vm_compute in returned (shift orbits t0 "heliocenter" "barycenter").

Definition propagated : ndarray :=
  Eval vm_compute in returned (universal at_barycenter (tdb t0) (tdb t1) ∅).

Definition at_heliocenter : ndarray :=
  Eval vm_compute in
    returned (shift (columns_from 2 propagated) (from_tdb (column_values 1 propagated))
                "barycenter" "heliocenter").

End Example.

(** The collaborators of [Example] with an internal backend that gives up. *)
Module Failing.

Definition universal (orbits : ndarray) (t0 t1 : list float) (kw : gmap string pyval)
  : outcome ndarray :=
  Raise (BackendError "the universal anomaly did not converge").

Definition collaborators : Collaborators := {|
  Time := Example.epochs;
  tdb_mjd := Example.tdb;
  tt_mjd := Example.tt;
  Time_mjd_tdb := Example.from_tdb;
  shiftOrbitsOrigin := Example.shift;
  _backendHandler := Example.handler;
  propagateUniversal := universal;
  propagateOrbitsPYOORB := Example.pyoorb
|}.

End Failing.

(** The collaborators of [Example] with an external backend that answers in
    the elements it was handed. *)
Module Keplerian.

(** Modelled from the spec: the code of the external ephemeris backend
    ([propagateOrbitsPYOORB]) is not among the sources.  Its interface (4.4)
    is [rows[N*M, k]] "with an epoch column plus state columns whose
    semantics match the orbit element type supplied"; for Keplerian elements
    the state columns are here [a], [e], [i], [Omega], [omega], [M0], with
    the elements as they were handed in. *)
Definition pyoorb (orbits : ndarray) (t0 t1 : list float) (kw : gmap string pyval)
  : outcome DataFrame :=
  let m := length t1 in
  Return
    (("orbit_id", IntCol (orbit_major (Z.of_nat <$> seq 0 (length orbits)) m))
       :: ("epoch_mjd", FloatCol (concat (replicate (length orbits) t1)))
       :: imap (fun j name => (name, FloatCol (column_values j orbits ≫= replicate m)))
            ["a"; "e"; "i"; "Omega"; "omega"; "M0"]).

Definition collaborators : Collaborators := {|
  Time := Example.epochs;
  tdb_mjd := Example.tdb;
  tt_mjd := Example.tt;
  Time_mjd_tdb := Example.from_tdb;
  shiftOrbitsOrigin := Example.shift;
  _backendHandler := Example.handler;
  propagateUniversal := Example.universal;
  propagateOrbitsPYOORB := pyoorb
|}.

Definition keplerian : gmap string pyval :=
  {["orbit_type" := PyStr "keplerian"]}.

End Keplerian.


(** * Properties *)

(** ** Arrays and frames *)

Lemma forallb_of_Forall {A : Type} (f : A -> bool) (P : A -> Prop) (l : list A) :
  (forall x, P x -> f x = true) -> Forall P l -> forallb f l = true.
Proof.
  intros Hf Hl. induction Hl as [|x l Hx _ IH]; simpl.
  - reflexivity.
  - rewrite (Hf x Hx), IH. reflexivity.
Qed.

Lemma getcol_wide (j : nat) (a : ndarray) :
  Forall (fun row => j < length row) a -> getcol j a = Return (column_values j a).
Proof.
  intros Ha. unfold getcol.
  rewrite (forallb_of_Forall _ (fun row => j < length row)); auto.
  intros row Hrow. apply Nat.ltb_lt. exact Hrow.
Qed.

Lemma floats_to_int64_length (l : list float) (zs : list Z) :
  floats_to_int64 l = Some zs -> length zs = length l.
Proof.
  revert zs. induction l as [|f l IH]; simpl; intros zs H.
  - inversion H. reflexivity.
  - destruct (float_to_int64 f); [|discriminate].
    destruct (floats_to_int64 l) as [zs'|]; [|discriminate].
    inversion H; subst. simpl. rewrite (IH zs' eq_refl). reflexivity.
Qed.

Lemma broadcast_row_same (c : nat) (xrow : list float) :
  length xrow = c -> broadcast_row c xrow = Some xrow.
Proof. intros H. unfold broadcast_row. rewrite (proj2 (Nat.eqb_eq _ _) H). reflexivity. Qed.

Lemma assign_rows_same_shape (k : nat) (a x : ndarray) :
  Forall2 (fun row xrow => length xrow = length row - k) a x ->
  assign_rows k a x = Some (assigned k a x).
Proof.
  induction 1 as [|row xrow a x Hrow _ IH]; simpl.
  - reflexivity.
  - unfold assign_row. rewrite (broadcast_row_same _ _ Hrow). simpl.
    rewrite IH. reflexivity.
Qed.

Lemma assign_columns_from_same_shape (k : nat) (a x : ndarray) :
  same_shape (columns_from k a) x ->
  assign_columns_from k a x = Return (assigned k a x).
Proof.
  intros Hs. unfold same_shape, columns_from in Hs.
  apply Forall2_fmap_l in Hs.
  assert (Hlen : length x = length a) by (symmetry; eapply Forall2_length; eauto).
  unfold assign_columns_from, broadcast_rows.
  rewrite (proj2 (Nat.eqb_eq _ _) Hlen).
  rewrite assign_rows_same_shape; [reflexivity|].
  eapply Forall2_impl; [exact Hs|].
  intros row xrow H. simpl in H. rewrite length_drop in H. lia.
Qed.

Lemma lookup_map {A B : Type} (f : A -> B) (l : list A) (i : nat) :
  map f l !! i = f <$> l !! i.
Proof. exact (list_lookup_fmap f l i). Qed.

Lemma column_values_length (j : nat) (a : ndarray) :
  length (column_values j a) = length a.
Proof. unfold column_values. apply length_map. Qed.

Lemma assigned_length (k : nat) (a x : ndarray) :
  Forall2 (fun row xrow => length xrow = length row - k) a x ->
  Forall (fun row => k <= length row) a ->
  Forall2 (fun row row' => length row' = length row) a (assigned k a x).
Proof.
  induction 1 as [|row xrow a x Hrow _ IH]; intros Hk; simpl.
  - constructor.
  - inversion Hk; subst. constructor; [|apply IH; assumption].
    rewrite length_app, length_take, Hrow. lia.
Qed.

Lemma assigned_kept (k j : nat) (a x : ndarray) :
  j < k ->
  Forall2 (fun row xrow => length xrow = length row - k) a x ->
  Forall (fun row => k <= length row) a ->
  column_values j (assigned k a x) = column_values j a.
Proof.
  intros Hj. induction 1 as [|row xrow a x Hrow _ IH]; intros Hk; simpl.
  - reflexivity.
  - inversion Hk; subst. rewrite IH by assumption. f_equal.
    rewrite lookup_app_l by (rewrite length_take; lia).
    rewrite lookup_take_lt by lia. reflexivity.
Qed.

Lemma assigned_written (k j : nat) (a x : ndarray) :
  Forall2 (fun row xrow => length xrow = length row - k) a x ->
  Forall (fun row => k <= length row) a ->
  column_values (k + j) (assigned k a x) = column_values j x.
Proof.
  induction 1 as [|row xrow a x Hrow _ IH]; intros Hk; simpl.
  - reflexivity.
  - inversion Hk; subst. rewrite IH by assumption. f_equal.
    rewrite lookup_app_r by (rewrite length_take; lia).
    rewrite length_take. replace (k + j - k `min` length row) with j by lia.
    reflexivity.
Qed.

Lemma length_concat_replicate {A : Type} (n : nat) (l : list A) :
  length (concat (replicate n l)) = n * length l.
Proof.
  induction n as [|n IH]; simpl.
  - reflexivity.
  - rewrite length_app, IH. reflexivity.
Qed.


Lemma length_orbit_major (ids : list Z) (m : nat) :
  length (orbit_major ids m) = length ids * m.
Proof.
  unfold orbit_major. induction ids as [|id ids IH].
  - reflexivity.
  - rewrite bind_cons, length_app, length_replicate, IH. reflexivity.
Qed.

Lemma lookup_orbit_major (ids : list Z) (m i j : nat) :
  j < m -> orbit_major ids m !! (i * m + j) = ids !! i.
Proof.
  intros Hj. unfold orbit_major. revert i.
  induction ids as [|id ids IH]; intros i.
  - reflexivity.
  - rewrite bind_cons. destruct i as [|i].
    + simpl. rewrite lookup_app_l by (rewrite length_replicate; exact Hj).
      apply lookup_replicate_2. exact Hj.
    + rewrite lookup_app_r by (rewrite length_replicate; simpl; lia).
      rewrite length_replicate.
      replace (S i * m + j - m) with (i * m + j) by (simpl; lia).
      apply IH.
Qed.

(** ** Lookups in the frames the dispatcher builds *)

Lemma df_replace_lookup_same (name : string) (c : column) (df df' : DataFrame) :
  df_replace name c df = Some df' -> df_lookup name df' = Some c.
Proof.
  revert df'. induction df as [|[n c0] df IH]; simpl; intros df' H; [discriminate|].
  destruct (String.eqb n name) eqn:Hn.
  - injection H as <-. simpl. rewrite Hn. reflexivity.
  - destruct (df_replace name c df) as [rest|]; [|discriminate].
    injection H as <-. simpl. rewrite Hn. apply IH. reflexivity.
Qed.

Lemma df_replace_lookup_other (name name' : string) (c : column) (df df' : DataFrame) :
  name' <> name -> df_replace name c df = Some df' ->
  df_lookup name' df' = df_lookup name' df.
Proof.
  intros Hne. revert df'.
  induction df as [|[n c0] df IH]; simpl; intros df' H; [discriminate|].
  destruct (String.eqb n name) eqn:Hn.
  - injection H as <-. simpl. apply String.eqb_eq in Hn. subst n.
    rewrite (proj2 (String.eqb_neq name name')) by congruence. reflexivity.
  - destruct (df_replace name c df) as [rest|]; [|discriminate].
    injection H as <-. simpl. rewrite (IH rest eq_refl). reflexivity.
Qed.

Lemma df_lookup_last (name name' : string) (c : column) (df : DataFrame) :
  df_lookup name' (df ++ [(name, c)])
  = match df_lookup name' df with
    | Some c' => Some c'
    | None => if String.eqb name name' then Some c else None
    end.
Proof.
  induction df as [|[n c0] df IH]; simpl.
  - reflexivity.
  - destruct (String.eqb n name'); [reflexivity | exact IH].
Qed.

Lemma df_replace_absent (name : string) (c : column) (df : DataFrame) :
  df_replace name c df = None -> df_lookup name df = None.
Proof.
  induction df as [|[n c0] df IH]; simpl; intros H; [reflexivity|].
  destruct (String.eqb n name); [discriminate|].
  destruct (df_replace name c df); [discriminate|]. apply IH. reflexivity.
Qed.

Lemma df_set_lookup_same (name : string) (c : column) (df : DataFrame) :
  df_lookup name (default (df ++ [(name, c)]) (df_replace name c df)) = Some c.
Proof.
  destruct (df_replace name c df) as [d|] eqn:Hd; simpl default.
  - apply (df_replace_lookup_same _ _ _ _ Hd).
  - rewrite df_lookup_last, (df_replace_absent _ _ _ Hd), String.eqb_refl. reflexivity.
Qed.

Lemma df_set_lookup_other (name name' : string) (c : column) (df : DataFrame) :
  name' <> name ->
  df_lookup name' (default (df ++ [(name, c)]) (df_replace name c df))
  = df_lookup name' df.
Proof.
  intros Hne. destruct (df_replace name c df) as [d|] eqn:Hd; simpl default.
  - apply (df_replace_lookup_other _ _ _ _ _ Hne Hd).
  - rewrite df_lookup_last.
    rewrite (proj2 (String.eqb_neq name name')) by congruence.
    destruct (df_lookup name' df); reflexivity.
Qed.

Lemma df_setitem_lookup_same (name : string) (c : column) (df df' : DataFrame) :
  df_setitem df name c = Return df' -> df_lookup name df' = Some c.
Proof.
  unfold df_setitem. destruct df as [|[n0 c0] df].
  - intros H. injection H as <-. simpl. rewrite String.eqb_refl. reflexivity.
  - destruct (col_length c =? col_length c0); [|discriminate].
    intros H. injection H as <-.
    exact (df_set_lookup_same name c ((n0, c0) :: df)).
Qed.

Lemma df_setitem_lookup_other (name name' : string) (c : column) (df df' : DataFrame) :
  name' <> name -> df_setitem df name c = Return df' ->
  df_lookup name' df' = df_lookup name' df.
Proof.
  intros Hne. unfold df_setitem. destruct df as [|[n0 c0] df].
  - intros H. injection H as <-. simpl.
    rewrite (proj2 (String.eqb_neq name name')) by congruence. reflexivity.
  - destruct (col_length c =? col_length c0); [|discriminate].
    intros H. injection H as <-.
    exact (df_set_lookup_other name name' c ((n0, c0) :: df) Hne).
Qed.

Lemma df_rename_lookup_other (name old new : string) (df : DataFrame) :
  name <> old -> name <> new ->
  df_lookup name (df_rename df old new) = df_lookup name df.
Proof.
  intros Ho Hn. induction df as [|[n c] df IH]; simpl; [reflexivity|].
  rewrite IH. destruct (String.eqb_spec n old) as [->|Hne].
  - rewrite (proj2 (String.eqb_neq new name)), (proj2 (String.eqb_neq old name))
      by congruence. reflexivity.
  - reflexivity.
Qed.

Lemma df_rename_lookup_old (old new : string) (df : DataFrame) :
  old <> new -> df_lookup old (df_rename df old new) = None.
Proof.
  intros Hne. induction df as [|[n c] df IH]; simpl; [reflexivity|].
  rewrite IH. destruct (String.eqb_spec n old) as [->|Hn].
  - rewrite (proj2 (String.eqb_neq new old)) by congruence. reflexivity.
  - rewrite (proj2 (String.eqb_neq n old)) by congruence. reflexivity.
Qed.

Lemma Forall_of_forallb {A : Type} (f : A -> bool) (P : A -> Prop) (l : list A) :
  (forall x, f x = true -> P x) -> forallb f l = true -> Forall P l.
Proof.
  intros Hf. induction l as [|x l IH]; simpl; intros H.
  - constructor.
  - apply andb_prop in H. destruct H as [Hx Hl]. constructor; auto.
Qed.

Lemma assign_rows_kept (k j : nat) (a x a' : ndarray) :
  j < k -> Forall (fun row => k <= length row) a ->
  assign_rows k a x = Some a' ->
  column_values j a' = column_values j a.
Proof.
  intros Hj Hk. revert x a'.
  induction Hk as [|row a Hrow _ IH]; intros x a' H; simpl in H.
  - injection H as <-. reflexivity.
  - destruct x as [|xrow x]; [discriminate|].
    destruct (assign_row k row xrow) as [row'|] eqn:Hr; [|discriminate].
    destruct (assign_rows k a x) as [rest|] eqn:Hrest; [|discriminate].
    injection H as <-. simpl. rewrite (IH _ _ Hrest). f_equal.
    unfold assign_row in Hr.
    destruct (broadcast_row (length row - k) xrow) as [b|]; [|discriminate].
    injection Hr as <-.
    rewrite lookup_app_l by (rewrite length_take; lia).
    rewrite lookup_take_lt by lia. reflexivity.
Qed.

Lemma assign_rows_length (k : nat) (a x a' : ndarray) :
  assign_rows k a x = Some a' -> length a' = length a.
Proof.
  revert x a'. induction a as [|row a IH]; intros x a' H; simpl in H.
  - injection H as <-. reflexivity.
  - destruct x as [|xrow x]; [discriminate|].
    destruct (assign_row k row xrow); [|discriminate].
    destruct (assign_rows k a x) as [rest|] eqn:Hrest; [|discriminate].
    injection H as <-. simpl. rewrite (IH _ _ Hrest). reflexivity.
Qed.

Lemma assign_columns_from_kept (k j : nat) (a x a' : ndarray) :
  j < k -> Forall (fun row => k <= length row) a ->
  assign_columns_from k a x = Return a' ->
  column_values j a' = column_values j a /\ length a' = length a.
Proof.
  intros Hj Hk. unfold assign_columns_from.
  destruct (broadcast_rows (length a) x) as [x'|]; [|discriminate].
  destruct (assign_rows k a x') as [a''|] eqn:Ha; [|discriminate].
  intros H. injection H as <-. split.
  - apply (assign_rows_kept _ _ _ _ _ Hj Hk Ha).
  - apply (assign_rows_length _ _ _ _ Ha).
Qed.

Lemma assemble_inv (final : ndarray) (d df : DataFrame) (c c' : column) :
  pd_DataFrame final canonical_columns = Return d ->
  df_getitem d "orbit_id" = Return c ->
  astype_int c = Return c' ->
  df_setitem d "orbit_id" c' = Return df ->
  exists ints : list Z,
    floats_to_int64 (column_values 0 final) = Some ints /\
    df = internal_frame final ints.
Proof.
  unfold pd_DataFrame.
  destruct (forallb _ final); [|discriminate].
  intros H. injection H as <-. simpl.
  intros H. injection H as <-. simpl.
  destruct (floats_to_int64 (column_values 0 final)) as [ints|]; [|discriminate].
  intros H. injection H as <-. simpl.
  destruct (_ =? _); [|discriminate].
  intros H. injection H as <-. exists ints. split; reflexivity.
Qed.

(** ** binary64: a difference that is exact

    [SpecFloat] gives the sum and the difference of two finite floats as the
    rounding of the exact result at the smaller exponent.  A mantissa of at
    most 53 binary digits at an exponent of the format is rounded to
    itself: this is the case of [b - a] when neither of [a] and [b] is more
    than twice the other, and then of [a + (b - a)], which is [b]. *)

Section Binary64.

Local Open Scope Z_scope.





















End Binary64.

(** Case analysis on the innermost stuck [match] of a hypothesis. *)
Ltac case_scrutinee H :=
  match type of H with
  | context [match ?x with _ => _ end] =>
      tryif (match x with context [match _ with _ => _ end] => idtac end)
      then fail
      else destruct x eqn:?
  end.

(** Case analysis on the innermost stuck [match] of the goal. *)
Ltac case_goal :=
  match goal with
  | |- context [match ?x with _ => _ end] =>
      tryif (match x with context [match _ with _ => _ end] => idtac end)
      then fail
      else destruct x eqn:?
  end.

(** The dispatcher and its monad, unfolded. *)
Ltac unfold_dispatcher :=
  unfold propagateOrbits, propagateOrbits_body, propagate_THOR, propagate_PYOORB,
    bind, lift, ret, raise, invoke, rebind_kwargs, dict_pop, dict_unpack, dict_setitem,
    _checkTime.

Section Properties.

Context {C : Collaborators}.

Lemma restore_origin (kw : gmap string pyval) (v : pyval) :
  kw !! "origin" = Some v -> <["origin" := v]> (delete "origin" kw) = kw.
Proof. intros H. rewrite insert_delete_eq. apply insert_id. exact H. Qed.

Lemma THOR_heliocenter_run (orbits : ndarray) (t0 t1 : Time)
    (kw : gmap string pyval) (out : ndarray) (ints : list Z) :
  kw !! "origin" = Some (PyStr "heliocenter") ->
  propagateUniversal orbits (tdb_mjd t0) (tdb_mjd t1) (delete "origin" kw) = Return out ->
  Forall (fun row => length row = 8) out ->
  floats_to_int64 (column_values 0 out) = Some ints ->
  propagateOrbits orbits (TimeObj t0) (TimeObj t1) "THOR" (Some kw)
  = (Return (internal_frame out ints),
     mkStore kw
       [Call_propagateUniversal orbits (tdb_mjd t0) (tdb_mjd t1) (delete "origin" kw)]).
Proof.
  intros Horigin Hcall Hshape Hids.
  unfold propagateOrbits, propagateOrbits_body, propagate_THOR.
  unfold bind, lift, ret, invoke, dict_pop, dict_unpack, dict_setitem. simpl.
  rewrite Horigin. simpl. rewrite Hcall.
  rewrite (restore_origin _ _ Horigin).
  unfold pd_DataFrame.
  rewrite (forallb_of_Forall _ (fun row => length row = 8)); [|
    intros row Hrow; apply Nat.eqb_eq; exact Hrow | exact Hshape].
  simpl. rewrite Hids. simpl.
  rewrite (floats_to_int64_length _ _ Hids), column_values_length, Nat.eqb_refl.
  reflexivity.
Qed.

Lemma THOR_barycenter_run (orbits : ndarray) (t0 t1 : Time)
    (kw : gmap string pyval) (shifted out back : ndarray) (ints : list Z) :
  kw !! "origin" = Some (PyStr "barycenter") ->
  shiftOrbitsOrigin orbits t0 "heliocenter" "barycenter" = Return shifted ->
  propagateUniversal shifted (tdb_mjd t0) (tdb_mjd t1) (delete "origin" kw) = Return out ->
  Forall (fun row => length row = 8) out ->
  floats_to_int64 (column_values 0 out) = Some ints ->
  shiftOrbitsOrigin (columns_from 2 out) (Time_mjd_tdb (column_values 1 out))
    "barycenter" "heliocenter" = Return back ->
  same_shape (columns_from 2 out) back ->
  propagateOrbits orbits (TimeObj t0) (TimeObj t1) "THOR" (Some kw)
  = (Return (shifted_frame out back ints),
     mkStore kw
       [Call_shiftOrbitsOrigin orbits t0 "heliocenter" "barycenter";
        Call_propagateUniversal shifted (tdb_mjd t0) (tdb_mjd t1) (delete "origin" kw);
        Call_shiftOrbitsOrigin (columns_from 2 out) (Time_mjd_tdb (column_values 1 out))
          "barycenter" "heliocenter"]).
Proof.
  intros Horigin Hin Hcall Hshape Hids Hback Hsame.
  assert (Hrows : Forall2 (fun row xrow => length xrow = length row - 2) out back).
  { unfold same_shape, columns_from in Hsame. apply Forall2_fmap_l in Hsame.
    eapply Forall2_impl; [exact Hsame|].
    intros row xrow H. simpl in H. rewrite length_drop in H. lia. }
  assert (Hwide : Forall (fun row => 2 <= length row) out).
  { eapply Forall_impl; [exact Hshape|]. intros row H. simpl in H. lia. }
  assert (Hshape' : Forall (fun row => length row = 8) (assigned 2 out back)).
  { pose proof (assigned_length 2 out back Hrows Hwide) as Hl.
    clear - Hl Hshape. induction Hl as [|row row' a a' Hr _ IH].
    - constructor.
    - inversion Hshape; subst. constructor; [congruence | auto]. }
  unfold propagateOrbits, propagateOrbits_body, propagate_THOR.
  unfold bind, lift, ret, invoke, dict_pop, dict_unpack, dict_setitem. simpl.
  rewrite Horigin. simpl. rewrite Hin, Hcall.
  rewrite getcol_wide by (eapply Forall_impl; [exact Hshape|]; intros row H; simpl in H; lia).
  rewrite Hback, (assign_columns_from_same_shape _ _ _ Hsame).
  cbn [kwargs calls].
  rewrite (restore_origin _ _ Horigin).
  unfold pd_DataFrame.
  rewrite (forallb_of_Forall _ (fun row => length row = 8)); [|
    intros row Hrow; apply Nat.eqb_eq; exact Hrow | exact Hshape'].
  simpl.
  rewrite (assigned_kept 2 0 out back) by (assumption || lia).
  rewrite Hids. simpl.
  rewrite (floats_to_int64_length _ _ Hids), column_values_length, Nat.eqb_refl.
  unfold shifted_frame.
  rewrite (assigned_kept 2 1 out back) by (assumption || lia).
  pose proof (fun j => assigned_written 2 j out back Hrows Hwide) as Hw.
  rewrite <- (Hw 0), <- (Hw 1), <- (Hw 2), <- (Hw 3), <- (Hw 4), <- (Hw 5).
  reflexivity.
Qed.

Lemma PYOORB_run (orbits : ndarray) (t0 t1 : Time)
    (kw : gmap string pyval) (df : DataFrame) :
  0 < length orbits ->
  propagateOrbitsPYOORB orbits
    (np_add (tt_mjd t0) (np_sub (tdb_mjd t0) (tt_mjd t0)))
    (np_add (tt_mjd t1) (np_sub (tdb_mjd t1) (tt_mjd t1)))
    (<["time_scale" := PyStr "TT"]> kw) = Return df ->
  has_rows (length orbits * length (tdb_mjd t1)) df ->
  propagateOrbits orbits (TimeObj t0) (TimeObj t1) "PYOORB" (Some kw)
  = (Return (retimed df (concat (replicate (length orbits) (tdb_mjd t1)))),
     mkStore (<["time_scale" := PyStr "TT"]> kw)
       [Call_propagateOrbitsPYOORB orbits
          (np_add (tt_mjd t0) (np_sub (tdb_mjd t0) (tt_mjd t0)))
          (np_add (tt_mjd t1) (np_sub (tdb_mjd t1) (tt_mjd t1)))
          (<["time_scale" := PyStr "TT"]> kw)]).
Proof.
  intros Hn Hcall Hrows.
  unfold propagateOrbits, propagateOrbits_body, propagate_PYOORB.
  unfold bind, lift, ret, invoke, dict_unpack, dict_setitem. simpl.
  rewrite Hcall.
  destruct (length orbits) as [|n] eqn:Hlen; [lia|].
  simpl replicate. unfold np_concatenate.
  unfold df_setitem, retimed.
  destruct df as [|[name c0] df]; simpl.
  - reflexivity.
  - inversion Hrows as [|? ? Hc0 _]; subst. simpl in Hc0.
    rewrite length_app, length_concat_replicate, Hc0.
    replace (length (tdb_mjd t1) + n * length (tdb_mjd t1))
      with (S n * length (tdb_mjd t1)) by (simpl; lia).
    rewrite Nat.eqb_refl. reflexivity.
Qed.

Lemma unsupported_backend_run (orbits : ndarray) (t0 t1 : Time)
    (backend : string) (kw : gmap string pyval) :
  backend <> "THOR" -> backend <> "PYOORB" ->
  propagateOrbits orbits (TimeObj t0) (TimeObj t1) backend (Some kw)
  = (Raise (ValueError backend_err), mkStore kw []).
Proof.
  intros Ht Hp.
  unfold propagateOrbits, propagateOrbits_body, bind, lift, ret, raise. simpl.
  rewrite (proj2 (String.eqb_neq _ _) Ht), (proj2 (String.eqb_neq _ _) Hp).
  reflexivity.
Qed.

Lemma origin_missing_run (orbits : ndarray) (t0 t1 : Time) (kw : gmap string pyval) :
  kw !! "origin" = None ->
  propagateOrbits orbits (TimeObj t0) (TimeObj t1) "THOR" (Some kw)
  = (Raise (KeyError "origin"), mkStore kw []).
Proof.
  intros Horigin.
  unfold propagateOrbits, propagateOrbits_body, propagate_THOR.
  unfold bind, lift, ret, dict_pop. simpl.
  rewrite Horigin. reflexivity.
Qed.

Lemma origin_unrecognized_run (orbits : ndarray) (t0 t1 : Time)
    (kw : gmap string pyval) (v : pyval) :
  kw !! "origin" = Some v ->
  py_eq_str v "heliocenter" = false ->
  py_eq_str v "barycenter" = false ->
  propagateOrbits orbits (TimeObj t0) (TimeObj t1) "THOR" (Some kw)
  = (Raise (ValueError origin_err), mkStore (delete "origin" kw) []).
Proof.
  intros Horigin Hh Hb.
  unfold propagateOrbits, propagateOrbits_body, propagate_THOR.
  unfold bind, lift, ret, raise, dict_pop. simpl.
  rewrite Horigin. simpl. rewrite Hb, Hh. reflexivity.
Qed.

(** What a call that returns has gone through: one of the two branches,
    entered with the options of the caller or of the handler. *)
Lemma propagateOrbits_returns_inv (orbits : ndarray) (t0 t1 : Time) (backend : string)
    (backend_kwargs : option (gmap string pyval)) (df : DataFrame) (st : store) :
  propagateOrbits orbits (TimeObj t0) (TimeObj t1) backend backend_kwargs = (Return df, st) ->
  exists s : store,
    (backend = "THOR" /\
     propagate_THOR orbits t0 (tdb_mjd t0) (tdb_mjd t1) s = (Return df, st)) \/
    (backend = "PYOORB" /\
     propagate_PYOORB orbits t0 t1 (tdb_mjd t1) s = (Return df, st)).
Proof.
  unfold propagateOrbits, propagateOrbits_body, _checkTime.
  unfold bind at 1 2 3. unfold lift at 1 2. cbn beta iota.
  destruct backend_kwargs as [kw|].
  - unfold ret at 1. cbn beta iota.
    destruct (String.eqb_spec backend "THOR") as [->|_].
    + intros H. eexists. left. split; [reflexivity | exact H].
    + destruct (String.eqb_spec backend "PYOORB") as [->|_].
      * intros H. eexists. right. split; [reflexivity | exact H].
      * discriminate.
  - unfold bind at 1. unfold invoke at 1. cbn beta iota.
    destruct (_backendHandler backend "propagate") as [d|e]; [|discriminate].
    unfold rebind_kwargs at 1. cbn beta iota.
    destruct (String.eqb_spec backend "THOR") as [->|_].
    + intros H. eexists. left. split; [reflexivity | exact H].
    + destruct (String.eqb_spec backend "PYOORB") as [->|_].
      * intros H. eexists. right. split; [reflexivity | exact H].
      * discriminate.
Qed.

(** A returning run of the THOR branch: the one call of the internal
    backend, whose epoch column is the one of the table. *)
Lemma propagate_THOR_inv (orbits : ndarray) (t0 : Time) (t0_tdb t1_tdb : list float)
    (s : store) (df : DataFrame) (st : store) :
  propagate_THOR orbits t0 t0_tdb t1_tdb s = (Return df, st) ->
  exists (orbits_ : ndarray) (kw : gmap string pyval) (out final : ndarray) (ints : list Z),
    Call_propagateUniversal orbits_ t0_tdb t1_tdb kw ∈ calls st /\
    propagateUniversal orbits_ t0_tdb t1_tdb kw = Return out /\
    column_values 1 final = column_values 1 out /\
    df = internal_frame final ints.
Proof.
  unfold propagate_THOR, bind, lift, ret, raise, invoke, dict_pop, dict_unpack, dict_setitem.
  destruct (kwargs s !! "origin") as [v|] eqn:Horigin; [|discriminate].
  simpl.
  destruct (py_eq_str v "barycenter") eqn:Hb;
    [|destruct (py_eq_str v "heliocenter") eqn:Hh; [|discriminate]];
    simpl; intros Hrun;
    repeat (case_scrutinee Hrun; simpl in Hrun; try discriminate Hrun);
    injection Hrun as Hset <-;
    match goal with
    | Hd : pd_DataFrame ?final _ = Return ?d, Hg : df_getitem ?d _ = Return ?c,
      Ha : astype_int ?c = Return ?c', Hs : df_setitem ?d _ ?c' = Return _ |- _ =>
        destruct (assemble_inv final d _ c c' Hd Hg Ha Hs) as (ints & Hints & ->)
    end.
  - match goal with
    | Hg : getcol 1 ?out = Return _, Has : assign_columns_from 2 ?out _ = Return ?final
      |- _ =>
        assert (Hwide : Forall (fun row => 2 <= length row) out)
    end.
    { unfold getcol in *.
      match goal with
      | Hg : (if forallb ?f ?out then _ else _) = Return _ |- _ =>
          destruct (forallb f out) eqn:Hf; [|discriminate Hg];
          apply (Forall_of_forallb f _ _ (fun row H => proj1 (Nat.ltb_lt _ _) H) Hf)
      end. }
    match goal with
    | Has : assign_columns_from 2 ?out _ = Return ?final |- _ =>
        destruct (assign_columns_from_kept 2 1 _ _ _ ltac:(lia) Hwide Has) as [H1 _]
    end.
    do 5 eexists. split; [|split; [eassumption|]].
    + cbn [calls]. apply elem_of_app. left. apply elem_of_app. right.
      apply list_elem_of_here.
    + exact (conj H1 eq_refl).
  - do 5 eexists. split; [|split; [eassumption|]].
    + cbn [calls]. apply elem_of_app. right. apply list_elem_of_here.
    + exact (conj eq_refl eq_refl).
Qed.

(** A returning run of the PYOORB branch: there is an orbit, and the table
    is the frame of the backend with its epochs renamed and rewritten. *)
Lemma propagate_PYOORB_inv (orbits : ndarray) (t0 t1 : Time) (t1_tdb : list float)
    (s : store) (df : DataFrame) (st : store) :
  propagate_PYOORB orbits t0 t1 t1_tdb s = (Return df, st) ->
  exists backend_df : DataFrame,
    propagateOrbitsPYOORB orbits
      (np_add (tt_mjd t0) (np_sub (tdb_mjd t0) (tt_mjd t0)))
      (np_add (tt_mjd t1) (np_sub (tdb_mjd t1) (tt_mjd t1)))
      (<["time_scale" := PyStr "TT"]> (kwargs s)) = Return backend_df /\
    0 < length orbits /\
    df = retimed backend_df (concat (replicate (length orbits) t1_tdb)).
Proof.
  unfold propagate_PYOORB, bind, lift, ret, invoke, dict_unpack, dict_setitem.
  cbn [kwargs calls]. intros Hrun.
  destruct (propagateOrbitsPYOORB _ _ _ _) as [backend_df|]; [|discriminate].
  destruct (length orbits) as [|n]; simpl in Hrun; [discriminate|].
  destruct (df_setitem _ _ _) as [df'|] eqn:Hset; simpl in Hrun; [|discriminate].
  injection Hrun as <- _.
  exists backend_df. split; [reflexivity|]. split; [lia|].
  unfold retimed. destruct backend_df as [|[n0 c0] rest].
  - simpl in Hset. injection Hset as <-. reflexivity.
  - unfold df_setitem in Hset. simpl in Hset.
    destruct (_ =? col_length c0); [|discriminate].
    injection Hset as <-. reflexivity.
Qed.

Lemma retimed_epochs (df : DataFrame) (epochs : list float) :
  df_lookup "epoch_mjd_tdb" (retimed df epochs) = Some (FloatCol epochs).
Proof. unfold retimed. apply df_set_lookup_same. Qed.

Lemma retimed_cartesian_frame (df : DataFrame) (epochs : list float) (epoch_type : dtype) :
  df_schema df = cartesian_frame_schema epoch_type ->
  df_schema (retimed df epochs) = canonical_schema.
Proof.
  unfold df_schema, cartesian_frame_schema. intros Hschema.
  do 9 (destruct df as [|[? ?] df]; try discriminate Hschema).
  simpl in Hschema. injection Hschema as -> H0 -> H1 -> H2 -> H3 -> H4 -> H5 -> H6 -> H7.
  unfold retimed. simpl. rewrite H0, H2, H3, H4, H5, H6, H7. reflexivity.
Qed.

(** A frame has no column under a name that is not in its schema. *)
Lemma df_lookup_absent (df : DataFrame) (name : string) :
  ~ In name (map fst (df_schema df)) -> df_lookup name df = None.
Proof.
  induction df as [|[n c] df IH]; simpl; intros Hname; [reflexivity|].
  destruct (String.eqb_spec n name) as [Heq|_].
  - exfalso. apply Hname. left. exact Heq.
  - apply IH. intros Hin. apply Hname. right. exact Hin.
Qed.

Lemma canonical_schema_names (df : DataFrame) (name : string) :
  df_schema df = canonical_schema -> ~ In name canonical_columns ->
  df_lookup name df = None.
Proof.
  intros Hschema Hname. apply df_lookup_absent. rewrite Hschema. exact Hname.
Qed.

(** X7. With [backend_kwargs=None] the options are asked of [_backendHandler],
    with the backend name as it is, before the name is compared: for an
    unknown name the call fails all the same, with what the handler raises,
    or, if the handler returns, with the error of the last [else]. *)
Lemma unsupported_backend_default_options (orbits : ndarray) (t0 t1 : Time)
    (backend : string) :
  backend <> "THOR" -> backend <> "PYOORB" ->
  exists (e : exn) (st : store),
    propagateOrbits orbits (TimeObj t0) (TimeObj t1) backend None = (Raise e, st) /\
    (UnsupportedBackend e \/ _backendHandler backend "propagate" = Raise e) /\
    calls st = [Call_backendHandler backend "propagate"].
Proof.
  intros Ht Hp.
  unfold propagateOrbits, propagateOrbits_body, bind, lift, ret, raise, invoke,
    rebind_kwargs.
  simpl.
  destruct (_backendHandler backend "propagate") as [d|e] eqn:Hhandler; simpl.
  - rewrite (proj2 (String.eqb_neq _ _) Ht), (proj2 (String.eqb_neq _ _) Hp).
    eexists _, _. split; [reflexivity|]. split; [left; reflexivity | reflexivity].
  - eexists _, _. split; [reflexivity|]. split; [right; reflexivity | reflexivity].
Qed.

(** X8. Without orbits the PYOORB branch has no array to concatenate: if the
    external backend returns, the call fails at [np.concatenate]. *)
Lemma PYOORB_without_orbits (t0 t1 : Time) (kw : gmap string pyval) (df : DataFrame) :
  propagateOrbitsPYOORB []
    (np_add (tt_mjd t0) (np_sub (tdb_mjd t0) (tt_mjd t0)))
    (np_add (tt_mjd t1) (np_sub (tdb_mjd t1) (tt_mjd t1)))
    (<["time_scale" := PyStr "TT"]> kw) = Return df ->
  fst (propagateOrbits [] (TimeObj t0) (TimeObj t1) "PYOORB" (Some kw))
  = Raise (ValueError "need at least one array to concatenate").
Proof.
  intros Hcall.
  unfold propagateOrbits, propagateOrbits_body, propagate_PYOORB.
  unfold bind, lift, ret, invoke, dict_unpack, dict_setitem. simpl.
  rewrite Hcall. reflexivity.
Qed.

(** Without orbits a call with the PYOORB backend raises, whatever the
    collaborators do and wherever the options come from. *)
Lemma PYOORB_raises_without_orbits (t0 t1 : Time)
    (backend_kwargs : option (gmap string pyval)) :
  exists (e : exn) (st : store),
    propagateOrbits [] (TimeObj t0) (TimeObj t1) "PYOORB" backend_kwargs = (Raise e, st).
Proof.
  unfold_dispatcher. simpl.
  destruct backend_kwargs as [kw|]; simpl.
  - destruct (propagateOrbitsPYOORB _ _ _ _); simpl; eexists _, _; reflexivity.
  - destruct (_backendHandler _ _); simpl; [|eexists _, _; reflexivity].
    destruct (propagateOrbitsPYOORB _ _ _ _); simpl; eexists _, _; reflexivity.
Qed.

(** An error of the internal backend reaches the caller as it is; the
    options map is then left without ["origin"]. *)
Lemma backend_error_propagates (orbits : ndarray) (t0 t1 : Time)
    (kw : gmap string pyval) (e : exn) :
  kw !! "origin" = Some (PyStr "heliocenter") ->
  propagateUniversal orbits (tdb_mjd t0) (tdb_mjd t1) (delete "origin" kw) = Raise e ->
  propagateOrbits orbits (TimeObj t0) (TimeObj t1) "THOR" (Some kw)
  = (Raise e,
     mkStore (delete "origin" kw)
       [Call_propagateUniversal orbits (tdb_mjd t0) (tdb_mjd t1) (delete "origin" kw)]).
Proof.
  intros Horigin Hcall.
  unfold propagateOrbits, propagateOrbits_body, propagate_THOR.
  unfold bind, lift, ret, invoke, dict_pop, dict_unpack. simpl.
  rewrite Horigin. simpl. rewrite Hcall. reflexivity.
Qed.

(** ** The properties the specification states *)


(** C3 (amended). A table returned with the THOR backend has the canonical
    schema.  A table returned with the PYOORB backend is the frame of the
    external backend with the column [epoch_mjd] renamed to [epoch_mjd_tdb]
    and set to a float64 array; every other column is the backend's, by
    name, place and type.  So the table has the canonical schema when the
    frame of the backend has the columns [orbit_id] (integer), [epoch_mjd],
    [x], [y], [z], [vx], [vy], [vz] (float64) in this order, and has not
    when that frame has a column under any other name. *)
Theorem result_schema_by_backend (orbits : ndarray) (t0 t1 : Time) (backend : string)
    (backend_kwargs : option (gmap string pyval)) (df : DataFrame) (st : store) :
  propagateOrbits orbits (TimeObj t0) (TimeObj t1) backend backend_kwargs = (Return df, st) ->
  (backend = "THOR" /\ df_schema df = canonical_schema) \/
  (backend = "PYOORB" /\
   exists (backend_df : DataFrame) (kw : gmap string pyval),
     propagateOrbitsPYOORB orbits
       (np_add (tt_mjd t0) (np_sub (tdb_mjd t0) (tt_mjd t0)))
       (np_add (tt_mjd t1) (np_sub (tdb_mjd t1) (tt_mjd t1))) kw = Return backend_df /\
     df = retimed backend_df (concat (replicate (length orbits) (tdb_mjd t1))) /\
     df_lookup "epoch_mjd_tdb" df
     = Some (FloatCol (concat (replicate (length orbits) (tdb_mjd t1)))) /\
     df_lookup "epoch_mjd" df = None /\
     (forall name : string,
         name <> "epoch_mjd" -> name <> "epoch_mjd_tdb" ->
         df_lookup name df = df_lookup name backend_df) /\
     (forall epoch_type : dtype,
         df_schema backend_df = cartesian_frame_schema epoch_type ->
         df_schema df = canonical_schema) /\
     (forall (name : string) (c : column),
         df_lookup name backend_df = Some c ->
         name <> "epoch_mjd" -> ~ In name canonical_columns ->
         df_schema df <> canonical_schema)).
Proof.
  intros Hrun.
  destruct (propagateOrbits_returns_inv _ _ _ _ _ _ _ Hrun) as (s & [[-> Hb]|[-> Hb]]).
  - left. split; [reflexivity|].
    destruct (propagate_THOR_inv _ _ _ _ _ _ _ Hb)
      as (orbits_ & kw & out & final & ints & _ & _ & _ & ->).
    reflexivity.
  - right. split; [reflexivity|].
    destruct (propagate_PYOORB_inv _ _ _ _ _ _ _ Hb) as (backend_df & Hcall & _ & ->).
    exists backend_df, (<["time_scale" := PyStr "TT"]> (kwargs s)).
    split; [exact Hcall|]. split; [reflexivity|].
    assert (Hne : "epoch_mjd" <> "epoch_mjd_tdb") by discriminate.
    assert (Hother : forall name : string,
               name <> "epoch_mjd" -> name <> "epoch_mjd_tdb" ->
               df_lookup name
                 (retimed backend_df (concat (replicate (length orbits) (tdb_mjd t1))))
               = df_lookup name backend_df).
    { intros name Ho Hn. unfold retimed. rewrite (df_set_lookup_other _ _ _ _ Hn).
      apply df_rename_lookup_other; assumption. }
    split; [apply retimed_epochs|]. split; [|split; [exact Hother|split]].
    + unfold retimed. rewrite (df_set_lookup_other _ _ _ _ Hne).
      apply df_rename_lookup_old. exact Hne.
    + intros epoch_type. apply retimed_cartesian_frame.
    + intros name c Hc Ho Hname Hschema.
      assert (Hn : name <> "epoch_mjd_tdb").
      { intros ->. apply Hname. simpl. tauto. }
      rewrite <- (Hother name Ho Hn) in Hc.
      rewrite (canonical_schema_names _ _ Hschema Hname) in Hc. discriminate Hc.
Qed.

(** C4. With the THOR backend and [origin = "barycenter"], the dispatcher
    first shifts the input orbits from the heliocenter to the barycenter at
    [t0], then calls the backend on the shifted orbits, then shifts the
    state columns (the columns from the third on) of all rows of what the
    backend returned from the barycenter to the heliocenter, at the epochs
    of the epoch column of these very rows: row [i] of the states goes with
    the epoch of row [i].  The state columns of the table are the result of
    that second shift. *)
Theorem barycenter_shifts_there_and_back (orbits : ndarray) (t0 t1 : Time)
    (kw : gmap string pyval) (shifted out back : ndarray) (ints : list Z) :
  kw !! "origin" = Some (PyStr "barycenter") ->
  shiftOrbitsOrigin orbits t0 "heliocenter" "barycenter" = Return shifted ->
  propagateUniversal shifted (tdb_mjd t0) (tdb_mjd t1) (delete "origin" kw) = Return out ->
  Forall (fun row => length row = 8) out ->
  floats_to_int64 (column_values 0 out) = Some ints ->
  shiftOrbitsOrigin (columns_from 2 out) (Time_mjd_tdb (column_values 1 out))
    "barycenter" "heliocenter" = Return back ->
  same_shape (columns_from 2 out) back ->
  exists (df : DataFrame) (st : store),
    propagateOrbits orbits (TimeObj t0) (TimeObj t1) "THOR" (Some kw) = (Return df, st) /\
    calls st =
      [Call_shiftOrbitsOrigin orbits t0 "heliocenter" "barycenter";
       Call_propagateUniversal shifted (tdb_mjd t0) (tdb_mjd t1) (delete "origin" kw);
       Call_shiftOrbitsOrigin (columns_from 2 out) (Time_mjd_tdb (column_values 1 out))
         "barycenter" "heliocenter"] /\
    (forall (i : nat) (row : list float),
        out !! i = Some row ->
        columns_from 2 out !! i = Some (drop 2 row) /\
        exists epoch : float,
          row !! 1 = Some epoch /\ column_values 1 out !! i = Some epoch) /\
    length back = length out /\
    state_columns df
    = map (fun j => Some (FloatCol (column_values j back))) [0; 1; 2; 3; 4; 5].
Proof.
  intros Horigin Hin Hcall Hshape Hids Hback Hsame.
  eexists _, _. split.
  { apply (THOR_barycenter_run _ _ _ _ _ _ _ _ Horigin Hin Hcall Hshape Hids Hback Hsame). }
  split; [reflexivity|]. split; [|split].
  - intros i row Hrow. split.
    + unfold columns_from, ndarray in *. rewrite lookup_map, Hrow. reflexivity.
    + assert (Hlen : length row = 8).
      { rewrite Forall_forall in Hshape. apply Hshape.
        eapply list_elem_of_lookup_2. exact Hrow. }
      destruct (row !! 1) as [epoch|] eqn:He.
      * exists epoch. split; [reflexivity|].
        unfold column_values, ndarray in *. rewrite lookup_map, Hrow. simpl.
        rewrite He. reflexivity.
      * apply lookup_ge_None in He. lia.
  - rewrite <- (Forall2_length _ _ _ Hsame). unfold columns_from. apply length_map.
  - reflexivity.
Qed.

(** C5. After a call with the THOR backend that returns, the caller's
    options map is the map that was passed in: it binds ["origin"] to the
    value it was passed with, although the backend was called with the
    options without that key. *)
Theorem origin_option_restored (orbits : ndarray) (t0 t1 : pyobj)
    (kw : gmap string pyval) (df : DataFrame) (st : store) :
  propagateOrbits orbits t0 t1 "THOR" (Some kw) = (Return df, st) ->
  kwargs st = kw /\
  exists v : pyval,
    kw !! "origin" = Some v /\
    kwargs st !! "origin" = Some v /\
    exists (orbits_ : ndarray) (t0_tdb t1_tdb : list float),
      Call_propagateUniversal orbits_ t0_tdb t1_tdb (delete "origin" kw) ∈ calls st.
Proof.
  unfold propagateOrbits, propagateOrbits_body, propagate_THOR.
  unfold bind, lift, ret, raise, invoke, dict_pop, dict_unpack, dict_setitem.
  destruct t0 as [t0|v0]; [|discriminate].
  destruct t1 as [t1|v1]; [|discriminate].
  simpl.
  destruct (kw !! "origin") as [v|] eqn:Horigin; [|discriminate].
  destruct (py_eq_str v "barycenter") eqn:Hb;
    [|destruct (py_eq_str v "heliocenter") eqn:Hh; [|discriminate]];
    simpl; intros Hrun;
    repeat (case_scrutinee Hrun; simpl in Hrun; try discriminate Hrun);
    injection Hrun as _ <-; cbn [kwargs calls];
    rewrite (restore_origin _ _ Horigin);
    (split; [reflexivity|]); exists v; (split; [reflexivity|]);
    (split; [exact Horigin|]); do 3 eexists; solve [repeat constructor].
Qed.


(** C7. With well-formed times and a backend that is neither ["THOR"] nor
    ["PYOORB"], the call fails with [UnsupportedBackend] whatever options
    map it is given: nothing is returned, no collaborator is called and the
    options map is as it was. *)
Theorem unsupported_backend_fails (orbits : ndarray) (t0 t1 : Time)
    (backend : string) (kw : gmap string pyval) :
  backend <> "THOR" -> backend <> "PYOORB" ->
  exists (e : exn) (st : store),
    propagateOrbits orbits (TimeObj t0) (TimeObj t1) backend (Some kw) = (Raise e, st) /\
    UnsupportedBackend e /\
    calls st = [] /\
    kwargs st = kw.
Proof.
  intros Ht Hp. eexists _, _. split.
  - apply unsupported_backend_run; assumption.
  - repeat split.
Qed.

(** C8. With the THOR backend and well-formed times, an options map
    without ["origin"], or with ["origin"] bound to something else than
    ["heliocenter"] and ["barycenter"], makes the call fail with
    [InvalidConfiguration]: nothing is returned and no collaborator (no
    backend, no origin shift) is called. *)
Theorem invalid_origin_fails (orbits : ndarray) (t0 t1 : Time) (kw : gmap string pyval) :
  invalid_origin kw ->
  exists (e : exn) (st : store),
    propagateOrbits orbits (TimeObj t0) (TimeObj t1) "THOR" (Some kw) = (Raise e, st) /\
    InvalidConfiguration e /\
    calls st = [].
Proof.
  unfold invalid_origin. intros Hinvalid.
  destruct (kw !! "origin") as [v|] eqn:Horigin.
  - destruct Hinvalid as [Hh Hb]. eexists _, _. split.
    + apply (origin_unrecognized_run _ _ _ _ _ Horigin Hh Hb).
    + split; [right; reflexivity | reflexivity].
  - eexists _, _. split.
    + apply (origin_missing_run _ _ _ _ Horigin).
    + split; [left; reflexivity | reflexivity].
Qed.

(** C9. With the THOR backend and [origin = "heliocenter"], the backend is
    called on the caller's orbits as they are, no origin shift is made, and
    the state columns of the table are the state columns of the direct
    call of the internal backend with the TDB times and the remaining
    options. *)
Theorem heliocenter_is_direct_propagation (orbits : ndarray) (t0 t1 : Time)
    (kw : gmap string pyval) (out : ndarray) (ints : list Z) :
  kw !! "origin" = Some (PyStr "heliocenter") ->
  direct_propagation orbits t0 t1 (delete "origin" kw) = Return out ->
  Forall (fun row => length row = 8) out ->
  floats_to_int64 (column_values 0 out) = Some ints ->
  exists (df : DataFrame) (st : store),
    propagateOrbits orbits (TimeObj t0) (TimeObj t1) "THOR" (Some kw) = (Return df, st) /\
    state_columns df
    = map (fun j => Some (FloatCol (column_values j out))) [2; 3; 4; 5; 6; 7] /\
    calls st
    = [Call_propagateUniversal orbits (tdb_mjd t0) (tdb_mjd t1) (delete "origin" kw)].
Proof.
  intros Horigin Hcall Hshape Hids. unfold direct_propagation in Hcall.
  eexists _, _. split.
  - apply (THOR_heliocenter_run _ _ _ _ _ _ Horigin Hcall Hshape Hids).
  - split; reflexivity.
Qed.

(** C10. With the THOR backend and an options map that binds ["origin"] to
    something else than ["heliocenter"] and ["barycenter"], the call fails
    and leaves the caller's options map without the key ["origin"]: the key
    was popped and is not put back. *)
Theorem invalid_origin_is_not_restored (orbits : ndarray) (t0 t1 : Time)
    (kw : gmap string pyval) (v : pyval) :
  kw !! "origin" = Some v ->
  py_eq_str v "heliocenter" = false ->
  py_eq_str v "barycenter" = false ->
  exists (e : exn) (st : store),
    propagateOrbits orbits (TimeObj t0) (TimeObj t1) "THOR" (Some kw) = (Raise e, st) /\
    kwargs st = delete "origin" kw /\
    kwargs st !! "origin" = None /\
    kwargs st <> kw.
Proof.
  intros Horigin Hh Hb. eexists _, _. split.
  - apply (origin_unrecognized_run _ _ _ _ _ Horigin Hh Hb).
  - cbn [kwargs]. split; [reflexivity|]. split.
    + apply lookup_delete_eq.
    + intros Heq. rewrite <- Heq, lookup_delete_eq in Horigin. discriminate Horigin.
Qed.

End Properties.




(** ** A request without orbits *)

(** C2. A request without orbits, for which the table of N * M rows is the
    table without rows.  With the PYOORB backend the call raises, whatever
    the collaborators do, and returns no table: when the external backend
    returns, [np.concatenate] is handed an empty list.  With the THOR
    backend of the concrete instance the same request returns the canonical
    table without rows. *)
Theorem empty_request_depends_on_the_backend :
  (forall (C : Collaborators) (t0 t1 : Time)
          (backend_kwargs : option (gmap string pyval)),
      exists (e : exn) (st : store),
        propagateOrbits [] (TimeObj t0) (TimeObj t1) "PYOORB" backend_kwargs
        = (Raise e, st)) /\
  fst (propagateOrbits [] (TimeObj (C := Example.collaborators) (Example.from_tdb []))
         (TimeObj Example.t1) "PYOORB" (Some Example.cartesian))
  = Raise (ValueError "need at least one array to concatenate") /\
  exists (df : DataFrame) (st : store),
    propagateOrbits [] (TimeObj (C := Example.collaborators) (Example.from_tdb []))
      (TimeObj Example.t1) "THOR" (Some Example.heliocentric) = (Return df, st) /\
    df_schema df = canonical_schema /\
    has_rows 0 df.
Proof.
  split; [|split].
  - intros C t0 t1 backend_kwargs. apply PYOORB_raises_without_orbits.
  - vm_compute. reflexivity.
  - eexists _, _. split; [vm_compute; reflexivity|].
    split; [reflexivity|]. repeat constructor.
Qed.

(** ** Where the claims as stated fail *)


(** With an external backend that answers in Keplerian elements the table
    has the columns of the backend, not the canonical ones. *)
Lemma keplerian_table_is_not_canonical :
  exists (df : DataFrame) (st : store),
    propagateOrbits (C := Keplerian.collaborators) Example.orbits
      (TimeObj (C := Keplerian.collaborators) Example.t0)
      (TimeObj (C := Keplerian.collaborators) Example.t1)
      "PYOORB" (Some Keplerian.keplerian) = (Return df, st) /\
    df_schema df
    = [("orbit_id", int64); ("epoch_mjd_tdb", float64);
       ("a", float64); ("e", float64); ("i", float64);
       ("Omega", float64); ("omega", float64); ("M0", float64)] /\
    df_schema df <> canonical_schema.
Proof.
  eexists _, _. split; [vm_compute; reflexivity|].
  split; [reflexivity | discriminate].
Qed.

(** ** The properties on the concrete instance *)


Lemma result_schema_by_backend_witness :
  exists (df : DataFrame) (st : store),
    propagateOrbits Example.orbits (TimeObj Example.t0) (TimeObj Example.t1)
      "PYOORB" (Some Example.cartesian) = (Return df, st) /\
    df_schema df = canonical_schema.
Proof.
  assert (Hrun : exists (df : DataFrame) (st : store),
             propagateOrbits Example.orbits (TimeObj Example.t0) (TimeObj Example.t1)
               "PYOORB" (Some Example.cartesian) = (Return df, st)).
  { eexists _, _. vm_compute. reflexivity. }
  destruct Hrun as (df & st & Hrun).
  exists df, st. split; [exact Hrun|].
  destruct (result_schema_by_backend _ _ _ _ _ _ _ Hrun)
    as [[Hb _]|(_ & backend_df & kw & Hcall & _ & _ & _ & _ & Hschema & _)];
    [discriminate Hb|].
  apply (Hschema float64).
  vm_compute in Hcall. injection Hcall as <-. reflexivity.
Defined.


Lemma barycenter_shifts_there_and_back_witness :
  exists (df : DataFrame) (st : store),
    propagateOrbits Example.orbits (TimeObj Example.t0) (TimeObj Example.t1)
      "THOR" (Some Example.barycentric) = (Return df, st) /\
    calls st =
      [Call_shiftOrbitsOrigin Example.orbits Example.t0 "heliocenter" "barycenter";
       Call_propagateUniversal Example.at_barycenter
         (tdb_mjd Example.t0) (tdb_mjd Example.t1) (delete "origin" Example.barycentric);
       Call_shiftOrbitsOrigin (columns_from 2 Example.propagated)
         (Time_mjd_tdb (column_values 1 Example.propagated))
         "barycenter" "heliocenter"] /\
    (forall (i : nat) (row : list float),
        Example.propagated !! i = Some row ->
        columns_from 2 Example.propagated !! i = Some (drop 2 row) /\
        exists epoch : float,
          row !! 1 = Some epoch /\ column_values 1 Example.propagated !! i = Some epoch) /\
    length Example.at_heliocenter = length Example.propagated /\
    state_columns df
    = map (fun j => Some (FloatCol (column_values j Example.at_heliocenter)))
        [0; 1; 2; 3; 4; 5].
Proof.
  apply (barycenter_shifts_there_and_back (C := Example.collaborators)
           Example.orbits Example.t0 Example.t1 Example.barycentric
           Example.at_barycenter Example.propagated Example.at_heliocenter
           [0; 0; 1; 1]%Z).
  - reflexivity.
  - reflexivity.
  - reflexivity.
  - vm_compute. repeat constructor.
  - vm_compute. reflexivity.
  - reflexivity.
  - vm_compute. repeat constructor.
Defined.

Lemma origin_option_restored_witness :
  exists (df : DataFrame) (st : store),
    propagateOrbits Example.orbits (TimeObj Example.t0) (TimeObj Example.t1)
      "THOR" (Some Example.barycentric) = (Return df, st) /\
    kwargs st = Example.barycentric /\
    exists v : pyval,
      Example.barycentric !! "origin" = Some v /\
      kwargs st !! "origin" = Some v /\
      exists (orbits_ : ndarray) (t0_tdb t1_tdb : list float),
        Call_propagateUniversal orbits_ t0_tdb t1_tdb (delete "origin" Example.barycentric)
          ∈ calls st.
Proof.
  assert (Hrun : exists (df : DataFrame) (st : store),
             propagateOrbits Example.orbits (TimeObj Example.t0) (TimeObj Example.t1)
               "THOR" (Some Example.barycentric) = (Return df, st)).
  { eexists _, _. vm_compute. reflexivity. }
  destruct Hrun as (df & st & Hrun).
  exists df, st. split; [exact Hrun|].
  exact (origin_option_restored _ _ _ _ _ _ Hrun).
Defined.

Lemma unsupported_backend_fails_witness :
  "BOGUS" <> "THOR" /\ "BOGUS" <> "PYOORB" /\
  exists (e : exn) (st : store),
    propagateOrbits Example.orbits (TimeObj Example.t0) (TimeObj Example.t1)
      "BOGUS" (Some Example.cartesian) = (Raise e, st) /\
    UnsupportedBackend e /\
    calls st = [] /\
    kwargs st = Example.cartesian.
Proof.
  assert (Ht : "BOGUS" <> "THOR") by discriminate.
  assert (Hp : "BOGUS" <> "PYOORB") by discriminate.
  split; [exact Ht|]. split; [exact Hp|].
  exact (unsupported_backend_fails Example.orbits Example.t0 Example.t1
           "BOGUS" Example.cartesian Ht Hp).
Defined.

Lemma invalid_origin_fails_witness :
  (invalid_origin Example.no_origin /\
   exists (e : exn) (st : store),
     propagateOrbits Example.orbits (TimeObj Example.t0) (TimeObj Example.t1)
       "THOR" (Some Example.no_origin) = (Raise e, st) /\
     InvalidConfiguration e /\
     calls st = []) /\
  (invalid_origin Example.galactic /\
   exists (e : exn) (st : store),
     propagateOrbits Example.orbits (TimeObj Example.t0) (TimeObj Example.t1)
       "THOR" (Some Example.galactic) = (Raise e, st) /\
     InvalidConfiguration e /\
     calls st = []).
Proof.
  assert (Hmissing : invalid_origin Example.no_origin) by (vm_compute; exact I).
  assert (Hother : invalid_origin Example.galactic) by (vm_compute; split; reflexivity).
  split; (split; [assumption|]).
  - exact (invalid_origin_fails Example.orbits Example.t0 Example.t1 _ Hmissing).
  - exact (invalid_origin_fails Example.orbits Example.t0 Example.t1 _ Hother).
Defined.

Lemma heliocenter_is_direct_propagation_witness :
  direct_propagation Example.orbits Example.t0 Example.t1
    (delete "origin" Example.heliocentric) = Return Example.direct /\
  exists (df : DataFrame) (st : store),
    propagateOrbits Example.orbits (TimeObj Example.t0) (TimeObj Example.t1)
      "THOR" (Some Example.heliocentric) = (Return df, st) /\
    state_columns df
    = map (fun j => Some (FloatCol (column_values j Example.direct))) [2; 3; 4; 5; 6; 7] /\
    calls st
    = [Call_propagateUniversal Example.orbits (tdb_mjd Example.t0) (tdb_mjd Example.t1)
         (delete "origin" Example.heliocentric)].
Proof.
  assert (Hdirect : direct_propagation Example.orbits Example.t0 Example.t1
                      (delete "origin" Example.heliocentric) = Return Example.direct)
    by reflexivity.
  split; [exact Hdirect|].
  apply (heliocenter_is_direct_propagation (C := Example.collaborators)
           Example.orbits Example.t0 Example.t1 Example.heliocentric
           Example.direct [0; 0; 1; 1]%Z).
  - reflexivity.
  - exact Hdirect.
  - vm_compute. repeat constructor.
  - vm_compute. reflexivity.
Defined.

Lemma invalid_origin_is_not_restored_witness :
  Example.galactic !! "origin" = Some (PyStr "galactic center") /\
  exists (e : exn) (st : store),
    propagateOrbits Example.orbits (TimeObj Example.t0) (TimeObj Example.t1)
      "THOR" (Some Example.galactic) = (Raise e, st) /\
    kwargs st = delete "origin" Example.galactic /\
    kwargs st !! "origin" = None /\
    kwargs st <> Example.galactic.
Proof.
  assert (Horigin : Example.galactic !! "origin" = Some (PyStr "galactic center"))
    by reflexivity.
  split; [exact Horigin|].
  apply (invalid_origin_is_not_restored (C := Example.collaborators)
           Example.orbits Example.t0 Example.t1 Example.galactic
           (PyStr "galactic center") Horigin); reflexivity.
Defined.

(** * More of the dispatcher *)

Section Effects.
Context {C : Collaborators}.

(** X1. Whatever a call with the THOR backend does (returns, or raises at
    any point), the options map is afterwards the one passed in, or the one
    passed in without ["origin"]. *)
Theorem THOR_options_afterwards (orbits : ndarray) (t0 t1 : pyobj)
    (kw : gmap string pyval) :
  kwargs (snd (propagateOrbits orbits t0 t1 "THOR" (Some kw))) = kw \/
  kwargs (snd (propagateOrbits orbits t0 t1 "THOR" (Some kw))) = delete "origin" kw.
Proof.
  unfold_dispatcher.
  destruct t0 as [t0|v0]; [|left; reflexivity].
  destruct t1 as [t1|v1]; [|left; reflexivity].
  simpl.
  destruct (kw !! "origin") as [v|] eqn:Horigin; [|left; reflexivity].
  simpl.
  destruct (py_eq_str v "barycenter") eqn:Hb;
    [|destruct (py_eq_str v "heliocenter") eqn:Hh; [|right; reflexivity]];
    simpl;
    repeat (case_goal; simpl);
    cbn [kwargs]; rewrite ?(restore_origin _ _ Horigin); auto.
Qed.

(** X3. A call with the PYOORB backend and well-formed times, however it
    ends, leaves the options map with ["time_scale"] bound to ["TT"], and
    has made one collaborator call: the external backend, on the orbits as
    they are, with the corrected TT epochs and these options.  In
    particular it never calls the origin shifter. *)
Theorem PYOORB_sets_time_scale (orbits : ndarray) (t0 t1 : Time)
    (kw : gmap string pyval) :
  snd (propagateOrbits orbits (TimeObj t0) (TimeObj t1) "PYOORB" (Some kw))
  = mkStore (<["time_scale" := PyStr "TT"]> kw)
      [Call_propagateOrbitsPYOORB orbits
         (np_add (tt_mjd t0) (np_sub (tdb_mjd t0) (tt_mjd t0)))
         (np_add (tt_mjd t1) (np_sub (tdb_mjd t1) (tt_mjd t1)))
         (<["time_scale" := PyStr "TT"]> kw)].
Proof.
  unfold_dispatcher. simpl.
  repeat (case_goal; simpl); reflexivity.
Qed.

(** X2. No call, whatever the backend and however it ends, changes the
    binding of an option other than ["origin"] and ["time_scale"]. *)
Theorem other_options_untouched (orbits : ndarray) (t0 t1 : pyobj) (backend : string)
    (kw : gmap string pyval) (key : string) :
  key <> "origin" -> key <> "time_scale" ->
  kwargs (snd (propagateOrbits orbits t0 t1 backend (Some kw))) !! key = kw !! key.
Proof.
  intros Ho Ht.
  destruct (String.eqb_spec backend "THOR") as [->|Hthor].
  - unfold_dispatcher.
    destruct t0 as [t0|v0]; [|reflexivity].
    destruct t1 as [t1|v1]; [|reflexivity].
    simpl.
    destruct (kw !! "origin") as [v|] eqn:Horigin; [|reflexivity].
    simpl.
    destruct (py_eq_str v "barycenter");
      [|destruct (py_eq_str v "heliocenter")];
      simpl; repeat (case_goal; simpl); cbn [kwargs];
      rewrite ?lookup_insert_ne, ?lookup_delete_ne by congruence; reflexivity.
  - unfold_dispatcher.
    destruct t0 as [t0|v0]; [|reflexivity].
    destruct t1 as [t1|v1]; [|reflexivity].
    simpl.
    rewrite (proj2 (String.eqb_neq _ _) Hthor).
    destruct (String.eqb backend "PYOORB"); simpl; [|reflexivity].
    repeat (case_goal; simpl); apply lookup_insert_ne; congruence.
Qed.

(** X5. When the internal backend raises, with either origin, the call
    raises the same exception, and the options map is left without
    ["origin"]: the error comes before the key is written back. *)
Theorem internal_backend_error_propagates (orbits orbits_ : ndarray) (t0 t1 : Time)
    (kw : gmap string pyval) (origin : string) (e : exn) :
  kw !! "origin" = Some (PyStr origin) ->
  (origin = "heliocenter" /\ orbits_ = orbits) \/
  (origin = "barycenter" /\
   shiftOrbitsOrigin orbits t0 "heliocenter" "barycenter" = Return orbits_) ->
  propagateUniversal orbits_ (tdb_mjd t0) (tdb_mjd t1) (delete "origin" kw) = Raise e ->
  exists st : store,
    propagateOrbits orbits (TimeObj t0) (TimeObj t1) "THOR" (Some kw) = (Raise e, st) /\
    kwargs st = delete "origin" kw /\
    kwargs st !! "origin" = None.
Proof.
  intros Horigin Hpath Hcall.
  unfold_dispatcher. simpl. rewrite Horigin. simpl.
  destruct Hpath as [[-> ->] | [-> Hshift]]; simpl.
  - rewrite Hcall. eexists. split; [reflexivity|]. split; [reflexivity|].
    apply lookup_delete_eq.
  - rewrite Hshift, Hcall. eexists. split; [reflexivity|]. split; [reflexivity|].
    apply lookup_delete_eq.
Qed.

(** X6. With [backend_kwargs=None] and a handler that returns the options
    [d], the call is the call with the options [d], after one call of
    [_backendHandler(backend, "propagate")]: the same outcome, the same final
    options, the same collaborator calls after that first one. *)
Theorem default_options_are_the_handlers (orbits : ndarray) (t0 t1 : Time)
    (backend : string) (d : gmap string pyval) :
  _backendHandler backend "propagate" = Return d ->
  propagateOrbits orbits (TimeObj t0) (TimeObj t1) backend None
  = (fst (propagateOrbits orbits (TimeObj t0) (TimeObj t1) backend (Some d)),
     mkStore
       (kwargs (snd (propagateOrbits orbits (TimeObj t0) (TimeObj t1) backend (Some d))))
       (Call_backendHandler backend "propagate"
          :: calls (snd (propagateOrbits orbits (TimeObj t0) (TimeObj t1) backend (Some d))))).
Proof.
  intros Hhandler.
  unfold_dispatcher. simpl. rewrite Hhandler. simpl.
  destruct (String.eqb backend "THOR"); [|destruct (String.eqb backend "PYOORB")];
    simpl; try reflexivity.
  - destruct (d !! "origin") as [v|]; simpl; [|reflexivity].
    destruct (py_eq_str v "barycenter");
      [|destruct (py_eq_str v "heliocenter"); [|reflexivity]];
      simpl; repeat (case_goal; simpl); reflexivity.
  - repeat (case_goal; simpl); reflexivity.
Qed.

(** What a returning call with the THOR backend has gone through. *)
Lemma THOR_returns_inv (orbits : ndarray) (t0 t1 : pyobj)
    (kw : gmap string pyval) (df : DataFrame) (st : store) :
  propagateOrbits orbits t0 t1 "THOR" (Some kw) = (Return df, st) ->
  exists (orbits_ : ndarray) (t0_tdb t1_tdb : list float) (out final : ndarray)
         (ints : list Z),
    Call_propagateUniversal orbits_ t0_tdb t1_tdb (delete "origin" kw) ∈ calls st /\
    propagateUniversal orbits_ t0_tdb t1_tdb (delete "origin" kw) = Return out /\
    column_values 0 final = column_values 0 out /\
    column_values 1 final = column_values 1 out /\
    length final = length out /\
    floats_to_int64 (column_values 0 final) = Some ints /\
    df = internal_frame final ints.
Proof.
  unfold_dispatcher.
  destruct t0 as [t0|v0]; [|discriminate].
  destruct t1 as [t1|v1]; [|discriminate].
  simpl.
  destruct (kw !! "origin") as [v|] eqn:Horigin; [|discriminate].
  simpl.
  destruct (py_eq_str v "barycenter") eqn:Hb;
    [|destruct (py_eq_str v "heliocenter") eqn:Hh; [|discriminate]];
    simpl; intros Hrun;
    repeat (case_scrutinee Hrun; simpl in Hrun; try discriminate Hrun);
    injection Hrun as Hset <-;
    match goal with
    | Hd : pd_DataFrame ?final _ = Return ?d, Hg : df_getitem ?d _ = Return ?c,
      Ha : astype_int ?c = Return ?c', Hs : df_setitem ?d _ ?c' = Return _ |- _ =>
        destruct (assemble_inv final d _ c c' Hd Hg Ha Hs) as (ints & Hints & ->)
    end.
  - match goal with
    | Hg : getcol 1 ?out = Return _, Has : assign_columns_from 2 ?out _ = Return ?final
      |- _ =>
        assert (Hwide : Forall (fun row => 2 <= length row) out)
    end.
    { unfold getcol in *.
      match goal with
      | Hg : (if forallb ?f ?out then _ else _) = Return _ |- _ =>
          destruct (forallb f out) eqn:Hf; [|discriminate Hg];
          apply (Forall_of_forallb f _ _ (fun row H => proj1 (Nat.ltb_lt _ _) H) Hf)
      end. }
    match goal with
    | Has : assign_columns_from 2 ?out _ = Return ?final |- _ =>
        destruct (assign_columns_from_kept 2 0 _ _ _ ltac:(lia) Hwide Has) as [H0 Hlen];
        destruct (assign_columns_from_kept 2 1 _ _ _ ltac:(lia) Hwide Has) as [H1 _]
    end.
    do 6 eexists. split; [|split; [eassumption|]].
    + cbn [calls]. solve [repeat constructor].
    + exact (conj H0 (conj H1 (conj Hlen (conj Hints eq_refl)))).
  - do 6 eexists. split; [|split; [eassumption|]].
    + cbn [calls]. solve [repeat constructor].
    + exact (conj eq_refl (conj eq_refl (conj eq_refl (conj Hints eq_refl)))).
Qed.

(** X10. Whatever the internal backend and the origin shifter return, a
    table that a call with the THOR backend returns has the canonical
    schema. *)
Theorem THOR_result_schema (orbits : ndarray) (t0 t1 : pyobj)
    (kw : gmap string pyval) (df : DataFrame) (st : store) :
  propagateOrbits orbits t0 t1 "THOR" (Some kw) = (Return df, st) ->
  df_schema df = canonical_schema.
Proof.
  intros Hrun.
  destruct (THOR_returns_inv _ _ _ _ _ _ Hrun)
    as (orbits_ & t0_tdb & t1_tdb & out & final & ints & _ & _ & _ & _ & _ & _ & ->).
  reflexivity.
Qed.

(** X11. In a table that a call with the THOR backend returns, with either
    origin, the identifiers are the integer casts of the first column of
    what the internal backend returned, the epochs are its second column
    as it is, and there is one row per row of the backend. *)
Theorem THOR_identifiers_and_epochs_are_the_backends (orbits : ndarray) (t0 t1 : pyobj)
    (kw : gmap string pyval) (df : DataFrame) (st : store) :
  propagateOrbits orbits t0 t1 "THOR" (Some kw) = (Return df, st) ->
  exists (orbits_ : ndarray) (t0_tdb t1_tdb : list float) (out : ndarray) (ints : list Z),
    Call_propagateUniversal orbits_ t0_tdb t1_tdb (delete "origin" kw) ∈ calls st /\
    propagateUniversal orbits_ t0_tdb t1_tdb (delete "origin" kw) = Return out /\
    floats_to_int64 (column_values 0 out) = Some ints /\
    df_lookup "orbit_id" df = Some (IntCol ints) /\
    df_lookup "epoch_mjd_tdb" df = Some (FloatCol (column_values 1 out)) /\
    has_rows (length out) df.
Proof.
  intros Hrun.
  destruct (THOR_returns_inv _ _ _ _ _ _ Hrun)
    as (orbits_ & t0_tdb & t1_tdb & out & final & ints
        & Hin & Hcall & H0 & H1 & Hlen & Hints & ->).
  exists orbits_, t0_tdb, t1_tdb, out, ints.
  split; [exact Hin|]. split; [exact Hcall|].
  split; [rewrite <- H0; exact Hints|].
  split; [reflexivity|].
  split; [simpl; rewrite H1; reflexivity|].
  unfold has_rows, internal_frame.
  repeat constructor; simpl; rewrite ?column_values_length; try exact Hlen.
  rewrite (floats_to_int64_length _ _ Hints), column_values_length. exact Hlen.
Qed.

(** X9. Whatever the external backend returns, a table that a call with the
    PYOORB backend returns has the TDB epochs of [t1], once per orbit, in
    its column [epoch_mjd_tdb], has no column [epoch_mjd], and has every
    other column as the backend returned it; there is at least one orbit,
    and the frame of the backend has [len(orbits) * len(t1)] rows. *)
Theorem PYOORB_result_columns (orbits : ndarray) (t0 t1 : Time)
    (kw : gmap string pyval) (df : DataFrame) (st : store) :
  propagateOrbits orbits (TimeObj t0) (TimeObj t1) "PYOORB" (Some kw) = (Return df, st) ->
  exists backend_df : DataFrame,
    propagateOrbitsPYOORB orbits
      (np_add (tt_mjd t0) (np_sub (tdb_mjd t0) (tt_mjd t0)))
      (np_add (tt_mjd t1) (np_sub (tdb_mjd t1) (tt_mjd t1)))
      (<["time_scale" := PyStr "TT"]> kw) = Return backend_df /\
    0 < length orbits /\
    df_lookup "epoch_mjd_tdb" df
    = Some (FloatCol (concat (replicate (length orbits) (tdb_mjd t1)))) /\
    df_lookup "epoch_mjd" df = None /\
    (forall name : string,
        name <> "epoch_mjd" -> name <> "epoch_mjd_tdb" ->
        df_lookup name df = df_lookup name backend_df) /\
    match backend_df with
    | [] => True
    | (_, c0) :: _ => col_length c0 = length orbits * length (tdb_mjd t1)
    end.
Proof.
  unfold_dispatcher. simpl. intros Hrun.
  destruct (propagateOrbitsPYOORB _ _ _ _) as [backend_df|] eqn:Hcall;
    simpl in Hrun; [|discriminate].
  destruct (length orbits) as [|n] eqn:Hn; simpl in Hrun; [discriminate|].
  destruct (df_setitem _ _ _) as [df'|] eqn:Hset; simpl in Hrun; [|discriminate].
  injection Hrun as <- _.
  exists backend_df. split; [reflexivity|]. split; [lia|]. split; [|split; [|split]].
  - apply (df_setitem_lookup_same _ _ _ _ Hset).
  - assert (Hne : "epoch_mjd" <> "epoch_mjd_tdb") by discriminate.
    rewrite (df_setitem_lookup_other _ _ _ _ _ Hne Hset).
    apply df_rename_lookup_old. exact Hne.
  - intros name Ho Hn'.
    rewrite (df_setitem_lookup_other _ _ _ _ _ Hn' Hset).
    apply df_rename_lookup_other; assumption.
  - destruct backend_df as [|[n0 c0] rest]; [exact I|].
    unfold df_setitem in Hset. simpl in Hset.
    destruct (_ =? col_length c0) eqn:Hrows; [|discriminate].
    apply Nat.eqb_eq in Hrows. rewrite <- Hrows.
    rewrite length_app, length_concat_replicate. simpl. lia.
Qed.

(** X4. With the PYOORB backend a ["time_scale"] among the caller's options
    is overridden: the call does what it does without it. *)
Theorem PYOORB_ignores_caller_time_scale (orbits : ndarray) (t0 t1 : Time)
    (kw : gmap string pyval) (v : pyval) :
  propagateOrbits orbits (TimeObj t0) (TimeObj t1) "PYOORB"
    (Some (<["time_scale" := v]> kw))
  = propagateOrbits orbits (TimeObj t0) (TimeObj t1) "PYOORB" (Some kw).
Proof.
  unfold_dispatcher. simpl. rewrite insert_insert_eq. reflexivity.
Qed.

End Effects.



(** ** On the concrete instances *)

Lemma other_options_untouched_witness :
  kwargs (snd (propagateOrbits Example.orbits (TimeObj Example.t0) (TimeObj Example.t1)
                 "THOR" (Some Example.galactic))) !! "max_iter"
  = Example.galactic !! "max_iter".
Proof.
  apply (other_options_untouched (C := Example.collaborators)); discriminate.
Defined.

Lemma internal_backend_error_propagates_witness :
  exists st : store,
    propagateOrbits (C := Failing.collaborators) Example.orbits
      (TimeObj (C := Failing.collaborators) Example.t0)
      (TimeObj (C := Failing.collaborators) Example.t1)
      "THOR" (Some Example.barycentric)
    = (Raise (BackendError "the universal anomaly did not converge"), st) /\
    kwargs st = delete "origin" Example.barycentric /\
    kwargs st !! "origin" = None.
Proof.
  apply (internal_backend_error_propagates (C := Failing.collaborators)
           Example.orbits Example.at_barycenter Example.t0 Example.t1
           Example.barycentric "barycenter").
  - reflexivity.
  - right. split; reflexivity.
  - reflexivity.
Defined.

Lemma default_options_are_the_handlers_witness :
  propagateOrbits Example.orbits (TimeObj Example.t0) (TimeObj Example.t1) "THOR" None
  = (fst (propagateOrbits Example.orbits (TimeObj Example.t0) (TimeObj Example.t1)
            "THOR" (Some {["origin" := PyStr "heliocenter"]})),
     mkStore
       (kwargs (snd (propagateOrbits Example.orbits (TimeObj Example.t0)
                       (TimeObj Example.t1) "THOR"
                       (Some {["origin" := PyStr "heliocenter"]}))))
       (Call_backendHandler "THOR" "propagate"
          :: calls (snd (propagateOrbits Example.orbits (TimeObj Example.t0)
                           (TimeObj Example.t1) "THOR"
                           (Some {["origin" := PyStr "heliocenter"]}))))).
Proof.
  apply (default_options_are_the_handlers (C := Example.collaborators)).
  reflexivity.
Defined.

Lemma unsupported_backend_default_options_witness :
  exists (e : exn) (st : store),
    propagateOrbits Example.orbits (TimeObj Example.t0) (TimeObj Example.t1) "BOGUS" None
    = (Raise e, st) /\
    (UnsupportedBackend e \/
     @_backendHandler Example.collaborators "BOGUS" "propagate" = Raise e) /\
    calls st = [Call_backendHandler "BOGUS" "propagate"].
Proof.
  apply (unsupported_backend_default_options (C := Example.collaborators)); discriminate.
Defined.

Lemma PYOORB_without_orbits_witness :
  fst (propagateOrbits [] (TimeObj (C := Example.collaborators) (Example.from_tdb []))
         (TimeObj Example.t1) "PYOORB" (Some Example.cartesian))
  = Raise (ValueError "need at least one array to concatenate").
Proof.
  eapply (PYOORB_without_orbits (C := Example.collaborators) (Example.from_tdb [])
            Example.t1 Example.cartesian).
  reflexivity.
Defined.

Lemma PYOORB_result_columns_witness :
  exists (df : DataFrame) (st : store),
    propagateOrbits Example.orbits (TimeObj Example.t0) (TimeObj Example.t1)
      "PYOORB" (Some Example.cartesian) = (Return df, st) /\
    exists backend_df : DataFrame,
      @propagateOrbitsPYOORB Example.collaborators Example.orbits
        (np_add (tt_mjd Example.t0) (np_sub (tdb_mjd Example.t0) (tt_mjd Example.t0)))
        (np_add (tt_mjd Example.t1) (np_sub (tdb_mjd Example.t1) (tt_mjd Example.t1)))
        (<["time_scale" := PyStr "TT"]> Example.cartesian) = Return backend_df /\
      0 < length Example.orbits /\
      df_lookup "epoch_mjd_tdb" df
      = Some (FloatCol (concat (replicate (length Example.orbits) (tdb_mjd Example.t1)))) /\
      df_lookup "epoch_mjd" df = None /\
      (forall name : string,
          name <> "epoch_mjd" -> name <> "epoch_mjd_tdb" ->
          df_lookup name df = df_lookup name backend_df) /\
      match backend_df with
      | [] => True
      | (_, c0) :: _ => col_length c0 = length Example.orbits * length (tdb_mjd Example.t1)
      end.
Proof.
  assert (Hrun : exists (df : DataFrame) (st : store),
             propagateOrbits Example.orbits (TimeObj Example.t0) (TimeObj Example.t1)
               "PYOORB" (Some Example.cartesian) = (Return df, st)).
  { eexists _, _. vm_compute. reflexivity. }
  destruct Hrun as (df & st & Hrun).
  exists df, st. split; [exact Hrun|].
  exact (PYOORB_result_columns _ _ _ _ _ _ Hrun).
Defined.

Lemma THOR_result_schema_witness :
  exists (df : DataFrame) (st : store),
    propagateOrbits Example.orbits (TimeObj Example.t0) (TimeObj Example.t1)
      "THOR" (Some Example.barycentric) = (Return df, st) /\
    df_schema df = canonical_schema.
Proof.
  assert (Hrun : exists (df : DataFrame) (st : store),
             propagateOrbits Example.orbits (TimeObj Example.t0) (TimeObj Example.t1)
               "THOR" (Some Example.barycentric) = (Return df, st)).
  { eexists _, _. vm_compute. reflexivity. }
  destruct Hrun as (df & st & Hrun).
  exists df, st. split; [exact Hrun|].
  exact (THOR_result_schema _ _ _ _ _ _ Hrun).
Defined.

Lemma THOR_identifiers_and_epochs_are_the_backends_witness :
  exists (df : DataFrame) (st : store),
    propagateOrbits Example.orbits (TimeObj Example.t0) (TimeObj Example.t1)
      "THOR" (Some Example.barycentric) = (Return df, st) /\
    exists (orbits_ : ndarray) (t0_tdb t1_tdb : list float) (out : ndarray)
           (ints : list Z),
      Call_propagateUniversal orbits_ t0_tdb t1_tdb (delete "origin" Example.barycentric)
        ∈ calls st /\
      @propagateUniversal Example.collaborators orbits_ t0_tdb t1_tdb
        (delete "origin" Example.barycentric) = Return out /\
      floats_to_int64 (column_values 0 out) = Some ints /\
      df_lookup "orbit_id" df = Some (IntCol ints) /\
      df_lookup "epoch_mjd_tdb" df = Some (FloatCol (column_values 1 out)) /\
      has_rows (length out) df.
Proof.
  assert (Hrun : exists (df : DataFrame) (st : store),
             propagateOrbits Example.orbits (TimeObj Example.t0) (TimeObj Example.t1)
               "THOR" (Some Example.barycentric) = (Return df, st)).
  { eexists _, _. vm_compute. reflexivity. }
  destruct Hrun as (df & st & Hrun).
  exists df, st. split; [exact Hrun|].
  exact (THOR_identifiers_and_epochs_are_the_backends _ _ _ _ _ _ Hrun).
Defined.
